(** * D3D9CommonTexture: the texture resource translator of d9vk

    A shallow embedding of [src/d3d9/d3d9_common_texture.h] and proofs about
    its mapping-mode selection, subresource indexing, per-subresource buffer
    and lock-flag arrays, view-set layouts and the memoized resolve image.

    Conventions.
    - [UINT] and [DWORD] are 32-bit unsigned integers, embedded in [N]; every
      arithmetic operation of the source is followed by [wrap32].
    - [Rc T] is a reference-counted pointer: [None] is [nullptr], [Some h] is
      a live object.  Objects carry the identity the device gave them, so
      pointer comparison is equality of handles.
    - [std::array<T, caps::MaxSubresources>] is a [list T] of length
      [MaxSubresources]; indexing outside the array is undefined behaviour in
      C++ and yields [Undefined] here.
    - A C++ exception (a failed device allocation) is [Throw]; the state an
      exception leaves behind is not tracked. *)

From stdpp Require Import base decidable option numbers list vector.

Local Open Scope N_scope.

(** ** Machine integers *)

Definition UINT := N.
Definition DWORD := N.

Definition wrap32 (n : N) : N := n mod 2 ^ 32.

(** ** Outcomes of a call *)

Inductive result (A : Type) : Type :=
| Ok (a : A)
| Throw
| Undefined.

Arguments Ok {A} a.
Arguments Throw {A}.
Arguments Undefined {A}.

#[global] Instance result_ret : MRet result := fun A a => Ok a.

#[global] Instance result_bind : MBind result := fun A B k r =>
  match r with
  | Ok a => k a
  | Throw => Throw
  | Undefined => Undefined
  end.

(** ** Enumerations of the Direct3D 9 and Vulkan interfaces

    [D3DPOOL], [D3DRESOURCETYPE], [HRESULT], [VkImageTiling] and
    [VkImageLayout] come from the platform headers; only the enumerators the
    texture code can meet are listed. *)

(** Modelled from the spec: the pixel-format enumeration [D3D9Format] of
    [d3d9_format.h], which is not under src/.  The header compares a format
    against two enumerators only, the "no resource" placeholder and the
    fixup-triggering format; every other enumerator is [OtherFormat] with its
    numeric code. *)
Inductive D3D9Format : Type :=
| NULL_FORMAT
| R8G8B8
| OtherFormat (code : N).

Inductive D3DPOOL : Type :=
| D3DPOOL_DEFAULT
| D3DPOOL_MANAGED
| D3DPOOL_SYSTEMMEM
| D3DPOOL_SCRATCH.

Inductive D3DRESOURCETYPE : Type :=
| D3DRTYPE_SURFACE
| D3DRTYPE_VOLUME
| D3DRTYPE_TEXTURE
| D3DRTYPE_VOLUMETEXTURE
| D3DRTYPE_CUBETEXTURE.

Inductive HRESULT : Type :=
| D3D_OK
| D3DERR_INVALIDCALL.

Inductive VkImageTiling : Type :=
| VK_IMAGE_TILING_OPTIMAL
| VK_IMAGE_TILING_LINEAR
| VK_IMAGE_TILING_DRM_FORMAT_MODIFIER_EXT.

Inductive VkImageLayout : Type :=
| VK_IMAGE_LAYOUT_UNDEFINED
| VK_IMAGE_LAYOUT_GENERAL
| VK_IMAGE_LAYOUT_COLOR_ATTACHMENT_OPTIMAL
| VK_IMAGE_LAYOUT_DEPTH_STENCIL_ATTACHMENT_OPTIMAL
| VK_IMAGE_LAYOUT_SHADER_READ_ONLY_OPTIMAL.

#[global] Instance D3D9Format_eq_dec : EqDecision D3D9Format.
Proof. solve_decision. Defined.
#[global] Instance D3DPOOL_eq_dec : EqDecision D3DPOOL.
Proof. solve_decision. Defined.
#[global] Instance D3DRESOURCETYPE_eq_dec : EqDecision D3DRESOURCETYPE.
Proof. solve_decision. Defined.
#[global] Instance HRESULT_eq_dec : EqDecision HRESULT.
Proof. solve_decision. Defined.
#[global] Instance VkImageTiling_eq_dec : EqDecision VkImageTiling.
Proof. solve_decision. Defined.
#[global] Instance VkImageLayout_eq_dec : EqDecision VkImageLayout.
Proof. solve_decision. Defined.

(** ** Image memory mapping mode *)

Inductive D3D9_COMMON_TEXTURE_MAP_MODE : Type :=
| D3D9_COMMON_TEXTURE_MAP_MODE_NONE
| D3D9_COMMON_TEXTURE_MAP_MODE_BACKED
| D3D9_COMMON_TEXTURE_MAP_MODE_SYSTEMMEM.

#[global] Instance MAP_MODE_eq_dec : EqDecision D3D9_COMMON_TEXTURE_MAP_MODE.
Proof. solve_decision. Defined.

(** ** Common texture description *)

Record D3D9_COMMON_TEXTURE_DESC : Type := {
  Width : UINT;
  Height : UINT;
  Depth : UINT;
  ArraySize : UINT;
  MipLevels : UINT;
  Usage : DWORD;
  Format : D3D9Format;
  Pool : D3DPOOL;
  Discard : bool;
  MultiSample : UINT;
  MultisampleQuality : DWORD
}.

Definition D3DUSAGE_AUTOGENMIPMAP : DWORD := 1024.

Definition with_MipLevels (n : UINT) (d : D3D9_COMMON_TEXTURE_DESC)
  : D3D9_COMMON_TEXTURE_DESC :=
  {| Width := Width d; Height := Height d; Depth := Depth d;
     ArraySize := ArraySize d; MipLevels := n; Usage := Usage d;
     Format := Format d; Pool := Pool d; Discard := Discard d;
     MultiSample := MultiSample d;
     MultisampleQuality := MultisampleQuality d |}.

(** ** Objects created by the device *)

Definition Rc (T : Type) : Type := option T.

Record DxvkImageCreateInfo : Type := {
  info_extent : UINT * UINT * UINT;
  info_numLayers : UINT;
  info_mipLevels : UINT;
  info_sampleCount : UINT;
  tiling : VkImageTiling
}.

Record DxvkImage : Type := {
  image_id : N;
  image_info : DxvkImageCreateInfo
}.

Record DxvkBuffer : Type := {
  buffer_id : N
}.

Record DxvkImageView : Type := {
  view_id : N;
  view_image : DxvkImage;
  view_layer : UINT;
  view_minLevel : UINT;
  view_srgb : bool
}.

(** [DxvkImageView::imageInfo()] : the creation info of the viewed image. *)
Definition imageInfo (v : DxvkImageView) : DxvkImageCreateInfo :=
  image_info (view_image v).

#[global] Instance DxvkImageCreateInfo_eq_dec : EqDecision DxvkImageCreateInfo.
Proof. solve_decision. Defined.
#[global] Instance DxvkImage_eq_dec : EqDecision DxvkImage.
Proof. solve_decision. Defined.
#[global] Instance DxvkBuffer_eq_dec : EqDecision DxvkBuffer.
Proof. solve_decision. Defined.
#[global] Instance DxvkImageView_eq_dec : EqDecision DxvkImageView.
Proof. solve_decision. Defined.

(** ** View set *)

Record D3D9ColorView : Type := {
  Color : Rc DxvkImageView;
  Srgb : Rc DxvkImageView
}.

Definition Pick (cv : D3D9ColorView) (srgb : bool) : Rc DxvkImageView :=
  if srgb then Srgb cv else Color cv.

Record D3D9ViewSet : Type := {
  Sample : D3D9ColorView;
  MipGenRT : Rc DxvkImageView;
  FaceSample : vec D3D9ColorView 6;
  FaceRenderTarget : vec D3D9ColorView 6;
  FaceDepth : vec (Rc DxvkImageView) 6
}.

Definition GetRTLayout (vs : D3D9ViewSet) : VkImageLayout :=
  match Color (FaceRenderTarget vs !!! 0%fin) with
  | Some view =>
      if decide (tiling (imageInfo view) = VK_IMAGE_TILING_OPTIMAL)
      then VK_IMAGE_LAYOUT_COLOR_ATTACHMENT_OPTIMAL
      else VK_IMAGE_LAYOUT_GENERAL
  | None => VK_IMAGE_LAYOUT_GENERAL
  end.

Definition GetDepthLayout (vs : D3D9ViewSet) : VkImageLayout :=
  match FaceDepth vs !!! 0%fin with
  | Some view =>
      if decide (tiling (imageInfo view) = VK_IMAGE_TILING_OPTIMAL)
      then VK_IMAGE_LAYOUT_DEPTH_STENCIL_ATTACHMENT_OPTIMAL
      else VK_IMAGE_LAYOUT_GENERAL
  | None => VK_IMAGE_LAYOUT_GENERAL
  end.

Definition with_Sample (cv : D3D9ColorView) (vs : D3D9ViewSet) : D3D9ViewSet :=
  {| Sample := cv; MipGenRT := MipGenRT vs; FaceSample := FaceSample vs;
     FaceRenderTarget := FaceRenderTarget vs; FaceDepth := FaceDepth vs |}.

(** ** Fixed-size arrays indexed at run time *)

Definition array_get {T : Type} (a : list T) (i : UINT) : result T :=
  match a !! N.to_nat i with
  | Some x => Ok x
  | None => Undefined
  end.

Definition array_set {T : Type} (a : list T) (i : UINT) (x : T)
  : result (list T) :=
  if decide (N.to_nat i < length a)%nat
  then Ok (<[N.to_nat i := x]> a)
  else Undefined.

(** ** The texture object

    The members [m_device], [m_format], [m_shadow] and [m_size] are written by
    code outside src/ and read by no method embedded here; they are left out
    and the device is passed to the methods that use it. *)

Record D3D9CommonTexture : Type := {
  m_desc : D3D9_COMMON_TEXTURE_DESC;
  m_type : D3DRESOURCETYPE;
  m_mapMode : D3D9_COMMON_TEXTURE_MAP_MODE;
  m_image : Rc DxvkImage;
  m_resolveImage : Rc DxvkImage;
  m_buffers : list (Rc DxvkBuffer);
  m_fixupBuffers : list (Rc DxvkBuffer);
  m_lockFlags : list DWORD;
  m_views : D3D9ViewSet
}.

Definition with_mapMode (m : D3D9_COMMON_TEXTURE_MAP_MODE)
  (t : D3D9CommonTexture) : D3D9CommonTexture :=
  {| m_desc := m_desc t; m_type := m_type t; m_mapMode := m;
     m_image := m_image t; m_resolveImage := m_resolveImage t;
     m_buffers := m_buffers t; m_fixupBuffers := m_fixupBuffers t;
     m_lockFlags := m_lockFlags t; m_views := m_views t |}.

Definition with_image (i : Rc DxvkImage) (t : D3D9CommonTexture)
  : D3D9CommonTexture :=
  {| m_desc := m_desc t; m_type := m_type t; m_mapMode := m_mapMode t;
     m_image := i; m_resolveImage := m_resolveImage t;
     m_buffers := m_buffers t; m_fixupBuffers := m_fixupBuffers t;
     m_lockFlags := m_lockFlags t; m_views := m_views t |}.

Definition with_resolveImage (i : Rc DxvkImage) (t : D3D9CommonTexture)
  : D3D9CommonTexture :=
  {| m_desc := m_desc t; m_type := m_type t; m_mapMode := m_mapMode t;
     m_image := m_image t; m_resolveImage := i;
     m_buffers := m_buffers t; m_fixupBuffers := m_fixupBuffers t;
     m_lockFlags := m_lockFlags t; m_views := m_views t |}.

Definition with_buffers (b : list (Rc DxvkBuffer)) (t : D3D9CommonTexture)
  : D3D9CommonTexture :=
  {| m_desc := m_desc t; m_type := m_type t; m_mapMode := m_mapMode t;
     m_image := m_image t; m_resolveImage := m_resolveImage t;
     m_buffers := b; m_fixupBuffers := m_fixupBuffers t;
     m_lockFlags := m_lockFlags t; m_views := m_views t |}.

Definition with_fixupBuffers (b : list (Rc DxvkBuffer)) (t : D3D9CommonTexture)
  : D3D9CommonTexture :=
  {| m_desc := m_desc t; m_type := m_type t; m_mapMode := m_mapMode t;
     m_image := m_image t; m_resolveImage := m_resolveImage t;
     m_buffers := m_buffers t; m_fixupBuffers := b;
     m_lockFlags := m_lockFlags t; m_views := m_views t |}.

Definition with_lockFlags (f : list DWORD) (t : D3D9CommonTexture)
  : D3D9CommonTexture :=
  {| m_desc := m_desc t; m_type := m_type t; m_mapMode := m_mapMode t;
     m_image := m_image t; m_resolveImage := m_resolveImage t;
     m_buffers := m_buffers t; m_fixupBuffers := m_fixupBuffers t;
     m_lockFlags := f; m_views := m_views t |}.

Definition with_views (v : D3D9ViewSet) (t : D3D9CommonTexture)
  : D3D9CommonTexture :=
  {| m_desc := m_desc t; m_type := m_type t; m_mapMode := m_mapMode t;
     m_image := m_image t; m_resolveImage := m_resolveImage t;
     m_buffers := m_buffers t; m_fixupBuffers := m_fixupBuffers t;
     m_lockFlags := m_lockFlags t; m_views := v |}.

(** *** Accessors and pure methods of the header *)

Definition Desc (t : D3D9CommonTexture) : D3D9_COMMON_TEXTURE_DESC := m_desc t.

Definition CountSubresources (t : D3D9CommonTexture) : UINT :=
  wrap32 (ArraySize (m_desc t) * MipLevels (m_desc t)).

Definition GetMapMode (t : D3D9CommonTexture) : D3D9_COMMON_TEXTURE_MAP_MODE :=
  m_mapMode t.

Definition GetImage (t : D3D9CommonTexture) : Rc DxvkImage := m_image t.

Definition GetMappingBuffer (Subresource : UINT) (t : D3D9CommonTexture)
  : result (Rc DxvkBuffer) :=
  array_get (m_buffers t) Subresource.

Definition RequiresFixup (t : D3D9CommonTexture) : bool :=
  bool_decide (Format (m_desc t) = R8G8B8).

Definition GetCopyBuffer (Subresource : UINT) (t : D3D9CommonTexture)
  : result (Rc DxvkBuffer) :=
  if RequiresFixup t
  then array_get (m_fixupBuffers t) Subresource
  else array_get (m_buffers t) Subresource.

Definition SetLockFlags (Subresource : UINT) (Flags : DWORD)
  (t : D3D9CommonTexture) : result D3D9CommonTexture :=
  f ← array_set (m_lockFlags t) Subresource Flags;
  Ok (with_lockFlags f t).

Definition GetLockFlags (Subresource : UINT) (t : D3D9CommonTexture)
  : result DWORD :=
  array_get (m_lockFlags t) Subresource.

Definition CalcSubresource (t : D3D9CommonTexture) (Face MipLevel : UINT)
  : UINT :=
  wrap32 (wrap32 (Face * MipLevels (m_desc t)) + MipLevel).

Definition DestroyBufferSubresource (Subresource : UINT)
  (t : D3D9CommonTexture) : result D3D9CommonTexture :=
  b ← array_set (m_buffers t) Subresource None;
  let t1 := with_buffers b t in
  f ← array_set (m_fixupBuffers t1) Subresource None;
  Ok (with_fixupBuffers f t1).

Definition IsManaged (t : D3D9CommonTexture) : bool :=
  bool_decide (Pool (m_desc t) = D3DPOOL_MANAGED).

Definition IsAutomaticMip (t : D3D9CommonTexture) : bool :=
  negb (N.land (Usage (m_desc t)) D3DUSAGE_AUTOGENMIPMAP =? 0).

Definition GetViews (t : D3D9CommonTexture) : D3D9ViewSet := m_views t.

Definition GetExtent (t : D3D9CommonTexture) : UINT * UINT * UINT :=
  (Width (m_desc t), Height (m_desc t), Depth (m_desc t)).

Definition DetermineMapMode (t : D3D9CommonTexture)
  : D3D9_COMMON_TEXTURE_MAP_MODE :=
  if decide (Format (m_desc t) = NULL_FORMAT)
  then D3D9_COMMON_TEXTURE_MAP_MODE_NONE
  else if decide (Pool (m_desc t) = D3DPOOL_SYSTEMMEM
                  \/ Pool (m_desc t) = D3DPOOL_SCRATCH)
  then D3D9_COMMON_TEXTURE_MAP_MODE_SYSTEMMEM
  else D3D9_COMMON_TEXTURE_MAP_MODE_BACKED.

(** ** The device, as far as the texture code consumes it *)

(** Modelled from the spec: the device abstraction of [dxvk_device.h] (not
    under src/), reduced to the collaborator contracts the spec lists:
    [createImage], [createImageView] and [createBuffer] either hand out a new
    object or fail synchronously, and a capability query answers whether a
    (format, tiling, usage, sample count) combination is supported.  Every
    object gets the next free identity; [dev_budget] is the number of objects
    the device can still create before an allocation fails. *)
Record DxvkDevice : Type := {
  dev_nextId : N;
  dev_budget : N;
  dev_supports : D3D9Format -> VkImageTiling -> DWORD -> UINT -> bool
}.

Definition allocate (dev : DxvkDevice) : result (N * DxvkDevice) :=
  if dev_budget dev =? 0 then Throw
  else Ok (dev_nextId dev,
           {| dev_nextId := dev_nextId dev + 1;
              dev_budget := dev_budget dev - 1;
              dev_supports := dev_supports dev |}).

Definition createBuffer (dev : DxvkDevice) : result (DxvkBuffer * DxvkDevice) :=
  '(id, dev') ← allocate dev;
  Ok ({| buffer_id := id |}, dev').

Definition createImage (info : DxvkImageCreateInfo) (dev : DxvkDevice)
  : result (DxvkImage * DxvkDevice) :=
  '(id, dev') ← allocate dev;
  Ok ({| image_id := id; image_info := info |}, dev').

Definition createImageView (image : DxvkImage) (Layer Lod : UINT) (srgb : bool)
  (dev : DxvkDevice) : result (DxvkImageView * DxvkDevice) :=
  '(id, dev') ← allocate dev;
  Ok ({| view_id := id; view_image := image; view_layer := Layer;
         view_minLevel := Lod; view_srgb := srgb |}, dev').

(** Number of objects the device created between two of its states. *)
Definition allocations (before after : DxvkDevice) : N :=
  dev_nextId after - dev_nextId before.

(** ** Methods whose bodies live in [d3d9_common_texture.cpp] *)

(** Modelled from the spec: the length of a full mip chain, which the spec
    gives as floor(log2(max(width, height, depth))) + 1; the helper
    [util::computeMipLevelCount] is not under src/. *)
Definition computeMipLevelCount (w h d : UINT) : UINT :=
  N.log2 (N.max w (N.max h d)) + 1.

(** Modelled from the spec: [NormalizeTextureProperties], declared in the
    header, body not under src/.  Spatial dimensions and the array size must
    be at least 1; a mip-level count of 0 is the "automatic" request and is
    replaced by the full chain; multisampling together with more than one mip
    level is rejected.  A rejected description is returned unchanged
    (all-or-nothing).  The compatibility of the array size with the resource
    kind cannot be decided here, since the function receives the description
    only; [construct] checks it. *)
Definition NormalizeTextureProperties (pDesc : D3D9_COMMON_TEXTURE_DESC)
  : HRESULT * D3D9_COMMON_TEXTURE_DESC :=
  if (Width pDesc =? 0) || (Height pDesc =? 0) || (Depth pDesc =? 0)
     || (ArraySize pDesc =? 0)
  then (D3DERR_INVALIDCALL, pDesc)
  else
    let mips :=
      if MipLevels pDesc =? 0
      then computeMipLevelCount (Width pDesc) (Height pDesc) (Depth pDesc)
      else MipLevels pDesc in
    if (1 <? MultiSample pDesc) && (1 <? mips)
    then (D3DERR_INVALIDCALL, pDesc)
    else (D3D_OK, with_MipLevels mips pDesc).

(** Modelled from the spec: [CreateBufferSubresource], declared in the header
    ("returns whether an allocation happened"), body not under src/.  If the
    subresource already has its mapping buffer nothing is allocated and the
    answer is [false]; otherwise a mapping buffer is created and, when the
    format requires fixup, a second buffer for the converted data.  Buffer
    sizes ([GetMipSize], absent) are not modelled. *)
Definition CreateBufferSubresource (Subresource : UINT)
  (t : D3D9CommonTexture) (dev : DxvkDevice)
  : result (bool * D3D9CommonTexture * DxvkDevice) :=
  b ← array_get (m_buffers t) Subresource;
  match b with
  | Some _ => Ok (false, t, dev)
  | None =>
      '(buf, dev1) ← createBuffer dev;
      bs ← array_set (m_buffers t) Subresource (Some buf);
      let t1 := with_buffers bs t in
      if RequiresFixup t1
      then
        '(fixup, dev2) ← createBuffer dev1;
        fs ← array_set (m_fixupBuffers t1) Subresource (Some fixup);
        Ok (true, with_fixupBuffers fs t1, dev2)
      else Ok (true, t1, dev1)
  end.

(** [CreateBuffers] of the header: [for (i = 0; i < count; i++)]. *)
Fixpoint CreateBuffers_loop (remaining : nat) (i : UINT)
  (t : D3D9CommonTexture) (dev : DxvkDevice)
  : result (D3D9CommonTexture * DxvkDevice) :=
  match remaining with
  | O => Ok (t, dev)
  | S remaining' =>
      '(_, t1, dev1) ← CreateBufferSubresource i t dev;
      CreateBuffers_loop remaining' (wrap32 (i + 1)) t1 dev1
  end.

Definition CreateBuffers (t : D3D9CommonTexture) (dev : DxvkDevice)
  : result (D3D9CommonTexture * DxvkDevice) :=
  CreateBuffers_loop (N.to_nat (CountSubresources t)) 0 t dev.

(** Modelled from the spec: [CreateResolveImage], declared in the header, body
    not under src/: an image with the description of the backing image except
    that it has one sample.  The device hands out a live image or fails;
    without a backing image there is no description to copy. *)
Definition CreateResolveImage (t : D3D9CommonTexture) (dev : DxvkDevice)
  : result (Rc DxvkImage * DxvkDevice) :=
  match m_image t with
  | None => Undefined
  | Some image =>
      let info := image_info image in
      '(resolve, dev') ← createImage
          {| info_extent := info_extent info;
             info_numLayers := info_numLayers info;
             info_mipLevels := info_mipLevels info;
             info_sampleCount := 1;
             tiling := tiling info |} dev;
      Ok (Some resolve, dev')
  end.

(** [GetResolveImage] of the header; the call returns the handle and leaves
    the texture and the device in their new states. *)
Definition GetResolveImage (t : D3D9CommonTexture) (dev : DxvkDevice)
  : result (Rc DxvkImage * D3D9CommonTexture * DxvkDevice) :=
  match m_resolveImage t with
  | None =>
      '(image, dev') ← CreateResolveImage t dev;
      let t' := with_resolveImage image t in
      Ok (m_resolveImage t', t', dev')
  | Some _ => Ok (m_resolveImage t, t, dev)
  end.

Definition AllLayers : UINT := 4294967295.

(** Modelled from the spec: [CreateView] and [CreateColorViewPair], declared
    in the header, bodies not under src/.  A view is created over the backing
    image for one layer (or all) starting at mip level [Lod]; the pair holds
    the view in the native format and its sRGB reinterpretation over the same
    range.  The format mapping is external and not modelled. *)
Definition CreateView (t : D3D9CommonTexture) (Layer Lod : UINT) (srgb : bool)
  (dev : DxvkDevice) : result (Rc DxvkImageView * DxvkDevice) :=
  match m_image t with
  | None => Undefined
  | Some image =>
      '(view, dev') ← createImageView image Layer Lod srgb dev;
      Ok (Some view, dev')
  end.

(** Modelled from the spec: see [CreateView]. *)
Definition CreateColorViewPair (t : D3D9CommonTexture) (Layer Lod : UINT)
  (dev : DxvkDevice) : result (D3D9ColorView * DxvkDevice) :=
  '(color, dev1) ← CreateView t Layer Lod false dev;
  '(srgb, dev2) ← CreateView t Layer Lod true dev1;
  Ok ({| Color := color; Srgb := srgb |}, dev2).

(** [RecreateSampledView] of the header. *)
Definition RecreateSampledView (Lod : UINT) (t : D3D9CommonTexture)
  (dev : DxvkDevice) : result (D3D9CommonTexture * DxvkDevice) :=
  '(views, dev') ← CreateColorViewPair t AllLayers Lod dev;
  Ok (with_views (with_Sample views (m_views t)) t, dev').

(** Modelled from the spec: [CreatePrimaryImage], declared in the header, body
    not under src/.  Six layers for a cube resource and one otherwise, the
    sample count of the multisample type, optimal tiling when the device
    supports the combination, else linear tiling, else the creation fails.
    Usage bits and the initial layout are not modelled. *)
Definition CreatePrimaryImage (t : D3D9CommonTexture)
  (ResourceType : D3DRESOURCETYPE) (dev : DxvkDevice)
  : result (Rc DxvkImage * DxvkDevice) :=
  let desc := m_desc t in
  let samples := N.max 1 (MultiSample desc) in
  let supported tl := dev_supports dev (Format desc) tl (Usage desc) samples in
  chosen ←
    (if supported VK_IMAGE_TILING_OPTIMAL then Ok VK_IMAGE_TILING_OPTIMAL
     else if supported VK_IMAGE_TILING_LINEAR then Ok VK_IMAGE_TILING_LINEAR
     else Throw);
  '(image, dev') ← createImage
      {| info_extent := GetExtent t;
         info_numLayers :=
           if decide (ResourceType = D3DRTYPE_CUBETEXTURE) then 6 else 1;
         info_mipLevels := MipLevels desc;
         info_sampleCount := samples;
         tiling := chosen |} dev;
  Ok (Some image, dev').

Definition null_color_view : D3D9ColorView := {| Color := None; Srgb := None |}.

Definition null_views : D3D9ViewSet :=
  {| Sample := null_color_view; MipGenRT := None;
     FaceSample := vreplicate 6 null_color_view;
     FaceRenderTarget := vreplicate 6 null_color_view;
     FaceDepth := vreplicate 6 None |}.

Definition face_slots : list (fin 6) :=
  [0%fin; 1%fin; 2%fin; 3%fin; 4%fin; 5%fin].

(** Modelled from the spec: [CreateInitialViews], declared in the header, body
    not under src/.  The default sample pair over all layers, the optional
    mip-generation view, and for every face of the resource a sample pair, a
    render-target pair and a depth view; the six slots exist for every
    resource and those past the array size stay null. *)
Fixpoint CreateFaceViews (slots : list (fin 6)) (t : D3D9CommonTexture)
  (vs : D3D9ViewSet) (dev : DxvkDevice) : result (D3D9ViewSet * DxvkDevice) :=
  match slots with
  | [] => Ok (vs, dev)
  | i :: slots' =>
      let face := N.of_nat (fin_to_nat i) in
      if decide (face < ArraySize (m_desc t))
      then
        '(sample, dev1) ← CreateColorViewPair t face 0 dev;
        '(target, dev2) ← CreateColorViewPair t face 0 dev1;
        '(depth, dev3) ← CreateView t face 0 false dev2;
        CreateFaceViews slots' t
          {| Sample := Sample vs; MipGenRT := MipGenRT vs;
             FaceSample := vinsert i sample (FaceSample vs);
             FaceRenderTarget := vinsert i target (FaceRenderTarget vs);
             FaceDepth := vinsert i depth (FaceDepth vs) |} dev3
      else CreateFaceViews slots' t vs dev
  end.

(** Modelled from the spec: see [CreateFaceViews]. *)
Definition CreateInitialViews (t : D3D9CommonTexture) (dev : DxvkDevice)
  : result (D3D9ViewSet * DxvkDevice) :=
  '(sample, dev1) ← CreateColorViewPair t AllLayers 0 dev;
  '(mipgen, dev2) ←
    (if IsAutomaticMip t then CreateView t AllLayers 0 false dev1
     else Ok (None, dev1));
  CreateFaceViews face_slots t
    {| Sample := sample; MipGenRT := mipgen;
       FaceSample := FaceSample null_views;
       FaceRenderTarget := FaceRenderTarget null_views;
       FaceDepth := FaceDepth null_views |} dev2.

Section Capacity.

(** [caps::MaxSubresources] is declared in [d3d9_caps.h], which is not under
    src/; the development is parametric in it. *)
Variable MaxSubresources : nat.

(** The three per-subresource arrays have [MaxSubresources] slots. *)
Definition texture_wf (t : D3D9CommonTexture) : Prop :=
  length (m_buffers t) = MaxSubresources
  /\ length (m_fixupBuffers t) = MaxSubresources
  /\ length (m_lockFlags t) = MaxSubresources.

(** Modelled from the spec: the constructor, declared in the header, body
    not under src/.  The description is normalized and a rejected one
    creates no resource; the array size must fit the resource kind (six for
    a cube, one otherwise); the map mode is determined once from the stored
    description; the backing image and the initial views are built unless
    the mode is [SYSTEMMEM]; no buffer and no resolve image exists yet. *)
Definition construct (pDesc : D3D9_COMMON_TEXTURE_DESC)
  (ResourceType : D3DRESOURCETYPE) (dev : DxvkDevice)
  : result (D3D9CommonTexture * DxvkDevice) :=
  let '(hr, desc) := NormalizeTextureProperties pDesc in
  if decide (hr = D3D_OK
             /\ ArraySize desc =
                if decide (ResourceType = D3DRTYPE_CUBETEXTURE) then 6 else 1)
  then
    let t0 :=
      {| m_desc := desc; m_type := ResourceType;
         m_mapMode := D3D9_COMMON_TEXTURE_MAP_MODE_NONE;
         m_image := None; m_resolveImage := None;
         m_buffers := replicate MaxSubresources None;
         m_fixupBuffers := replicate MaxSubresources None;
         m_lockFlags := replicate MaxSubresources 0;
         m_views := null_views |} in
    let t1 := with_mapMode (DetermineMapMode t0) t0 in
    if decide (m_mapMode t1 = D3D9_COMMON_TEXTURE_MAP_MODE_SYSTEMMEM)
    then Ok (t1, dev)
    else
      '(image, dev1) ← CreatePrimaryImage t1 ResourceType dev;
      let t2 := with_image image t1 in
      '(views, dev2) ← CreateInitialViews t2 dev1;
      Ok (with_views views t2, dev2)
  else Throw.

End Capacity.

(** ** Calls a client can make on a texture *)

Inductive Call : Type :=
| CallSetLockFlags (Subresource : UINT) (Flags : DWORD)
| CallDestroyBufferSubresource (Subresource : UINT)
| CallCreateBufferSubresource (Subresource : UINT)
| CallCreateBuffers
| CallGetResolveImage
| CallRecreateSampledView (Lod : UINT).

Definition invoke (c : Call) (t : D3D9CommonTexture) (dev : DxvkDevice)
  : result (D3D9CommonTexture * DxvkDevice) :=
  match c with
  | CallSetLockFlags i f => t' ← SetLockFlags i f t; Ok (t', dev)
  | CallDestroyBufferSubresource i =>
      t' ← DestroyBufferSubresource i t; Ok (t', dev)
  | CallCreateBufferSubresource i =>
      '(_, t', dev') ← CreateBufferSubresource i t dev; Ok (t', dev')
  | CallCreateBuffers => CreateBuffers t dev
  | CallGetResolveImage =>
      '(_, t', dev') ← GetResolveImage t dev; Ok (t', dev')
  | CallRecreateSampledView Lod => RecreateSampledView Lod t dev
  end.

(** [later t t']: [t'] is a state of the texture [t] after some sequence of
    completed calls; the device may have served other clients in between. *)
Inductive later (t : D3D9CommonTexture) : D3D9CommonTexture -> Prop :=
| later_now : later t t
| later_call (c : Call) (t1 t2 : D3D9CommonTexture) (dev dev' : DxvkDevice) :
    later t t1 -> invoke c t1 dev = Ok (t2, dev') -> later t t2.

(** The tiling of the image behind a view, if there is a view. *)
Definition view_tiling (view : Rc DxvkImageView) : option VkImageTiling :=
  tiling <$> (imageInfo <$> view).

(** [unchanged t t']: what no call ever alters between two states of a
    texture.  The description, the resource type, the map mode and the backing
    image stay; a resolve image, once there, stays; the arrays keep their
    sizes. *)
Definition unchanged (t t' : D3D9CommonTexture) : Prop :=
  m_desc t' = m_desc t
  /\ m_type t' = m_type t
  /\ m_mapMode t' = m_mapMode t
  /\ m_image t' = m_image t
  /\ (forall image, m_resolveImage t = Some image ->
                    m_resolveImage t' = Some image)
  /\ length (m_buffers t') = length (m_buffers t)
  /\ length (m_fixupBuffers t') = length (m_fixupBuffers t)
  /\ length (m_lockFlags t') = length (m_lockFlags t).

(** [GetExtentMip] of the header.  [util::computeMipLevelExtent] is defined
    outside src/ and is taken as a parameter; the remainder by a mip-level
    count of zero is undefined in C++. *)
Definition GetExtentMip
  (computeMipLevelExtent : UINT * UINT * UINT -> UINT -> UINT * UINT * UINT)
  (Subresource : UINT) (t : D3D9CommonTexture) : result (UINT * UINT * UINT) :=
  if MipLevels (m_desc t) =? 0 then Undefined
  else
    let MipLevel := Subresource mod MipLevels (m_desc t) in
    Ok (computeMipLevelExtent (GetExtent t) MipLevel).

(** ** Concrete textures used to exercise the statements *)

Definition plain_device : DxvkDevice :=
  {| dev_nextId := 100; dev_budget := 64;
     dev_supports := fun _ tl _ _ => bool_decide (tl = VK_IMAGE_TILING_OPTIMAL) |}.

(** Scenario A of the spec: 256x256, four mips, one layer, default pool. *)
Definition scenario_A_desc : D3D9_COMMON_TEXTURE_DESC :=
  {| Width := 256; Height := 256; Depth := 1; ArraySize := 1; MipLevels := 4;
     Usage := 0; Format := OtherFormat 21; Pool := D3DPOOL_DEFAULT;
     Discard := false; MultiSample := 0; MultisampleQuality := 0 |}.

(** A description in the system-memory pool. *)
Definition sysmem_desc (format : D3D9Format) (faces mips : UINT)
  : D3D9_COMMON_TEXTURE_DESC :=
  {| Width := 64; Height := 64; Depth := 1; ArraySize := faces;
     MipLevels := mips; Usage := 0; Format := format;
     Pool := D3DPOOL_SYSTEMMEM; Discard := false; MultiSample := 0;
     MultisampleQuality := 0 |}.

(** A texture without image, views and buffers, with six array slots: what
    construction leaves for a description in the system-memory pool. *)
Definition bare_texture (desc : D3D9_COMMON_TEXTURE_DESC) : D3D9CommonTexture :=
  let t0 :=
    {| m_desc := desc; m_type := D3DRTYPE_TEXTURE;
       m_mapMode := D3D9_COMMON_TEXTURE_MAP_MODE_NONE;
       m_image := None; m_resolveImage := None;
       m_buffers := replicate 6 None;
       m_fixupBuffers := replicate 6 None;
       m_lockFlags := replicate 6 0;
       m_views := null_views |} in
  with_mapMode (DetermineMapMode t0) t0.

(** A texture in the fixup format whose subresource 0 has its mapping buffer
    and a distinct fixup buffer. *)
Definition fixup_texture_with_buffers : D3D9CommonTexture :=
  with_fixupBuffers (<[0%nat := Some {| buffer_id := 101 |}]> (replicate 6 None))
    (with_buffers (<[0%nat := Some {| buffer_id := 100 |}]> (replicate 6 None))
       (bare_texture (sysmem_desc R8G8B8 1 1))).

(** An image with optimal tiling that is sampled but is neither a render
    target nor a depth buffer: only the sample views exist. *)
Definition sampled_image : DxvkImage :=
  {| image_id := 7;
     image_info :=
       {| info_extent := (256, 256, 1); info_numLayers := 1;
          info_mipLevels := 4; info_sampleCount := 1;
          tiling := VK_IMAGE_TILING_OPTIMAL |} |}.

Definition sampled_view (id : N) (layer : UINT) (srgb : bool) : DxvkImageView :=
  {| view_id := id; view_image := sampled_image; view_layer := layer;
     view_minLevel := 0; view_srgb := srgb |}.

Definition sampled_only_views : D3D9ViewSet :=
  {| Sample := {| Color := Some (sampled_view 8 AllLayers false);
                  Srgb := Some (sampled_view 9 AllLayers true) |};
     MipGenRT := None;
     FaceSample :=
       vinsert 0%fin {| Color := Some (sampled_view 10 0 false);
                        Srgb := Some (sampled_view 11 0 true) |}
               (FaceSample null_views);
     FaceRenderTarget := FaceRenderTarget null_views;
     FaceDepth := FaceDepth null_views |}.

Definition sampled_only_texture : D3D9CommonTexture :=
  {| m_desc := scenario_A_desc; m_type := D3DRTYPE_TEXTURE;
     m_mapMode := D3D9_COMMON_TEXTURE_MAP_MODE_BACKED;
     m_image := Some sampled_image; m_resolveImage := None;
     m_buffers := replicate 6 None;
     m_fixupBuffers := replicate 6 None;
     m_lockFlags := replicate 6 0;
     m_views := sampled_only_views |}.

(** A texture in the managed pool, as [bare_texture] but with that pool. *)
Definition managed_texture : D3D9CommonTexture :=
  bare_texture
    {| Width := 64; Height := 64; Depth := 1; ArraySize := 1; MipLevels := 7;
       Usage := 0; Format := OtherFormat 21; Pool := D3DPOOL_MANAGED;
       Discard := false; MultiSample := 0; MultisampleQuality := 0 |}.

(** An instance for the parameter of [GetExtentMip]: every dimension halved
    once per level and never below one texel. *)
Definition halved_extent (extent : UINT * UINT * UINT) (level : UINT)
  : UINT * UINT * UINT :=
  let '(w, h, d) := extent in
  (N.max 1 (N.shiftr w level), N.max 1 (N.shiftr h level),
   N.max 1 (N.shiftr d level)).

(** A texture in the managed pool whose format is the placeholder. *)
Definition managed_placeholder_texture : D3D9CommonTexture :=
  bare_texture
    {| Width := 64; Height := 64; Depth := 1; ArraySize := 1; MipLevels := 1;
       Usage := 0; Format := NULL_FORMAT; Pool := D3DPOOL_MANAGED;
       Discard := false; MultiSample := 0; MultisampleQuality := 0 |}.

(** A two-level texture in the fixup format with both subresources populated:
    mapping buffers 100 and 102, fixup buffers 101 and 103, lock flags 16
    and 32. *)
Definition two_level_fixup_texture : D3D9CommonTexture :=
  with_lockFlags [16; 32; 0; 0; 0; 0]
    (with_fixupBuffers
       [Some {| buffer_id := 101 |}; Some {| buffer_id := 103 |};
        None; None; None; None]
       (with_buffers
          [Some {| buffer_id := 100 |}; Some {| buffer_id := 102 |};
           None; None; None; None]
          (bare_texture (sysmem_desc R8G8B8 1 2)))).

(** [fixup_buffers_paired t]: in a texture that requires fixup, every
    subresource that has its mapping buffer also has a fixup buffer, and the
    two are different objects. *)
Definition fixup_buffers_paired (t : D3D9CommonTexture) : Prop :=
  RequiresFixup t = true ->
  forall i buf, array_get (m_buffers t) i = Ok (Some buf) ->
    exists fixup, array_get (m_fixupBuffers t) i = Ok (Some fixup)
                  /\ fixup <> buf.

(** ** Arrays *)

Section Arrays.

Context {T : Type}.
Implicit Types (a : list T) (i j : UINT) (x : T).

Lemma array_set_Ok a i x :
  (N.to_nat i < length a)%nat -> array_set a i x = Ok (<[N.to_nat i := x]> a).
Proof. intros Hi. unfold array_set. by rewrite decide_True. Qed.

Lemma array_set_inv a i x a' :
  array_set a i x = Ok a' ->
  (N.to_nat i < length a)%nat /\ a' = <[N.to_nat i := x]> a.
Proof.
  unfold array_set. case_decide; [|discriminate].
  intros [= <-]. done.
Qed.

Lemma array_set_length a i x a' :
  array_set a i x = Ok a' -> length a' = length a.
Proof. intros [_ ->]%array_set_inv. apply length_insert. Qed.

Lemma array_get_set_eq a i x a' :
  array_set a i x = Ok a' -> array_get a' i = Ok x.
Proof.
  intros [Hi ->]%array_set_inv. unfold array_get.
  by rewrite list_lookup_insert_eq.
Qed.

Lemma array_get_set_ne a i j x a' :
  array_set a i x = Ok a' -> j <> i -> array_get a' j = array_get a j.
Proof.
  intros [Hi ->]%array_set_inv Hne. unfold array_get.
  rewrite list_lookup_insert_ne; [done|]. intros Heq. apply Hne.
  by apply N2Nat.inj.
Qed.

Lemma array_get_Ok a i :
  (N.to_nat i < length a)%nat -> exists x, array_get a i = Ok x.
Proof.
  intros Hi. unfold array_get.
  destruct (lookup_lt_is_Some_2 a (N.to_nat i) Hi) as [x ->]. eauto.
Qed.

End Arrays.

(** Splitting a sequenced call that completed. *)
Lemma bind_Ok {A B : Type} (r : result A) (k : A -> result B) (b : B) :
  r ≫= k = Ok b -> exists a, r = Ok a /\ k a = Ok b.
Proof. destruct r; simpl; [eauto | discriminate | discriminate]. Qed.

Ltac bind_inv H :=
  let a := fresh "a" in
  let Ha := fresh "Ha" in
  apply bind_Ok in H; destruct H as (a & Ha & H).

(** ** Lock flags *)

(** C10. After [SetLockFlags(i, f)] on an in-range subresource,
    [GetLockFlags(i)] returns [f]; the flags of every other subresource and
    the buffers, images, views, description and map mode are unchanged. *)
Theorem SetLockFlags_GetLockFlags (MaxSubresources : nat)
  (t : D3D9CommonTexture) (i : UINT) (f : DWORD) :
  texture_wf MaxSubresources t ->
  (N.to_nat i < MaxSubresources)%nat ->
  exists t',
    SetLockFlags i f t = Ok t'
    /\ GetLockFlags i t' = Ok f
    /\ (forall j, j <> i -> GetLockFlags j t' = GetLockFlags j t)
    /\ (forall j, GetMappingBuffer j t' = GetMappingBuffer j t)
    /\ (forall j, GetCopyBuffer j t' = GetCopyBuffer j t)
    /\ m_buffers t' = m_buffers t
    /\ m_fixupBuffers t' = m_fixupBuffers t
    /\ GetImage t' = GetImage t
    /\ m_resolveImage t' = m_resolveImage t
    /\ GetViews t' = GetViews t
    /\ Desc t' = Desc t
    /\ GetMapMode t' = GetMapMode t
    /\ texture_wf MaxSubresources t'.
Proof.
  intros (Hb & Hx & Hl) Hi.
  assert (Hset : array_set (m_lockFlags t) i f
                 = Ok (<[N.to_nat i := f]> (m_lockFlags t)))
    by (apply array_set_Ok; lia).
  exists (with_lockFlags (<[N.to_nat i := f]> (m_lockFlags t)) t).
  unfold SetLockFlags, GetLockFlags. rewrite Hset. simpl.
  split; [done|].
  split; [by apply (array_get_set_eq _ _ _ _ Hset)|].
  split; [intros j Hj; by apply (array_get_set_ne _ _ _ _ _ Hset)|].
  repeat split; try done.
  simpl. rewrite length_insert. done.
Qed.

(** ** Destroying the buffers of one subresource *)

(** C7. [DestroyBufferSubresource(i)] on an in-range subresource nulls the
    mapping buffer and the fixup buffer of [i]; for every [j <> i] the mapping
    buffer and the fixup buffer are unchanged, and so are all lock flags, the
    description, the map mode, the backing image, the resolve image and the
    view set. *)
Theorem DestroyBufferSubresource_frame (MaxSubresources : nat)
  (t : D3D9CommonTexture) (i : UINT) :
  texture_wf MaxSubresources t ->
  (N.to_nat i < MaxSubresources)%nat ->
  exists t',
    DestroyBufferSubresource i t = Ok t'
    /\ GetMappingBuffer i t' = Ok None
    /\ array_get (m_fixupBuffers t') i = Ok None
    /\ (forall j, j <> i -> GetMappingBuffer j t' = GetMappingBuffer j t)
    /\ (forall j, j <> i ->
          array_get (m_fixupBuffers t') j = array_get (m_fixupBuffers t) j)
    /\ (forall j, j <> i -> GetCopyBuffer j t' = GetCopyBuffer j t)
    /\ (forall j, GetLockFlags j t' = GetLockFlags j t)
    /\ Desc t' = Desc t
    /\ GetMapMode t' = GetMapMode t
    /\ GetImage t' = GetImage t
    /\ m_resolveImage t' = m_resolveImage t
    /\ GetViews t' = GetViews t
    /\ texture_wf MaxSubresources t'.
Proof.
  intros (Hb & Hx & Hl) Hi.
  assert (Hsb : array_set (m_buffers t) i None
                = Ok (<[N.to_nat i := None]> (m_buffers t)))
    by (apply array_set_Ok; lia).
  assert (Hsf : array_set (m_fixupBuffers t) i None
                = Ok (<[N.to_nat i := None]> (m_fixupBuffers t)))
    by (apply array_set_Ok; lia).
  eexists. unfold DestroyBufferSubresource. rewrite Hsb. simpl.
  rewrite Hsf. simpl. split; [reflexivity|].
  unfold GetMappingBuffer, GetCopyBuffer, GetLockFlags, RequiresFixup. simpl.
  split; [by apply (array_get_set_eq _ _ _ _ Hsb)|].
  split; [by apply (array_get_set_eq _ _ _ _ Hsf)|].
  split; [intros j Hj; by apply (array_get_set_ne _ _ _ _ _ Hsb)|].
  split; [intros j Hj; by apply (array_get_set_ne _ _ _ _ _ Hsf)|].
  split.
  { intros j Hj. case_bool_decide.
    - by apply (array_get_set_ne _ _ _ _ _ Hsf).
    - by apply (array_get_set_ne _ _ _ _ _ Hsb). }
  repeat split; try done; simpl; rewrite length_insert; done.
Qed.

(** ** Subresource indexing *)

Lemma wrap32_small (n : N) : n < 2 ^ 32 -> wrap32 n = n.
Proof. intros Hn. unfold wrap32. by apply N.mod_small. Qed.

Lemma CalcSubresource_exact (t : D3D9CommonTexture) (face mip : UINT) :
  ArraySize (m_desc t) * MipLevels (m_desc t) < 2 ^ 32 ->
  face < ArraySize (m_desc t) ->
  mip < MipLevels (m_desc t) ->
  CalcSubresource t face mip = face * MipLevels (m_desc t) + mip
  /\ face * MipLevels (m_desc t) + mip
     < ArraySize (m_desc t) * MipLevels (m_desc t).
Proof.
  intros Hfit Hface Hmip.
  assert (Hlt : face * MipLevels (m_desc t) + mip
                < ArraySize (m_desc t) * MipLevels (m_desc t)) by nia.
  split; [|done]. unfold CalcSubresource.
  rewrite (wrap32_small (face * _)) by nia.
  apply wrap32_small. lia.
Qed.

(** C4, amended. For every texture whose product arraySize * mipLevels fits
    the 32-bit [UINT] (no wrap-around), [CalcSubresource(face, mip)] equals
    face * mipLevels + mip and is a bijection from the pairs with
    face < arraySize and mip < mipLevels onto [0, CountSubresources()), with
    inverse face = index / mipLevels, mip = index % mipLevels. *)
Theorem CalcSubresource_bijection (t : D3D9CommonTexture) :
  ArraySize (m_desc t) * MipLevels (m_desc t) < 2 ^ 32 ->
  CountSubresources t = ArraySize (m_desc t) * MipLevels (m_desc t)
  /\ (forall face mip,
        face < ArraySize (m_desc t) -> mip < MipLevels (m_desc t) ->
        CalcSubresource t face mip = face * MipLevels (m_desc t) + mip
        /\ CalcSubresource t face mip < CountSubresources t
        /\ CalcSubresource t face mip / MipLevels (m_desc t) = face
        /\ CalcSubresource t face mip mod MipLevels (m_desc t) = mip)
  /\ (forall face mip face' mip',
        face < ArraySize (m_desc t) -> mip < MipLevels (m_desc t) ->
        face' < ArraySize (m_desc t) -> mip' < MipLevels (m_desc t) ->
        CalcSubresource t face mip = CalcSubresource t face' mip' ->
        face = face' /\ mip = mip')
  /\ (forall index,
        index < CountSubresources t ->
        index / MipLevels (m_desc t) < ArraySize (m_desc t)
        /\ index mod MipLevels (m_desc t) < MipLevels (m_desc t)
        /\ CalcSubresource t (index / MipLevels (m_desc t))
                             (index mod MipLevels (m_desc t)) = index).
Proof.
  intros Hfit.
  assert (Hcount : CountSubresources t
                   = ArraySize (m_desc t) * MipLevels (m_desc t))
    by (unfold CountSubresources; by apply wrap32_small).
  assert (Hinv : forall face mip,
            face < ArraySize (m_desc t) -> mip < MipLevels (m_desc t) ->
            CalcSubresource t face mip / MipLevels (m_desc t) = face
            /\ CalcSubresource t face mip mod MipLevels (m_desc t) = mip).
  { intros face mip Hface Hmip.
    destruct (CalcSubresource_exact t face mip Hfit Hface Hmip) as [-> _].
    split.
    - rewrite N.div_add_l by lia. rewrite N.div_small by done. lia.
    - rewrite N.add_comm, N.Div0.mod_add. by apply N.mod_small. }
  split; [done|]. split; [|split].
  - intros face mip Hface Hmip.
    destruct (CalcSubresource_exact t face mip Hfit Hface Hmip) as [He Hlt].
    destruct (Hinv face mip Hface Hmip) as [Hd Hm].
    rewrite Hcount. split; [done|]. split; [by rewrite He|]. done.
  - intros face mip face' mip' Hf Hm Hf' Hm' Heq.
    destruct (Hinv face mip Hf Hm) as [Hd1 Hm1].
    destruct (Hinv face' mip' Hf' Hm') as [Hd2 Hm2].
    rewrite Heq in Hd1, Hm1. split; congruence.
  - intros index Hindex. rewrite Hcount in Hindex.
    assert (Hpos : 0 < MipLevels (m_desc t)) by nia.
    assert (Hdiv : index / MipLevels (m_desc t) < ArraySize (m_desc t)).
    { apply N.Div0.div_lt_upper_bound. lia. }
    assert (Hmod : index mod MipLevels (m_desc t) < MipLevels (m_desc t))
      by (apply N.mod_lt; lia).
    split; [done|]. split; [done|].
    destruct (CalcSubresource_exact t _ _ Hfit Hdiv Hmod) as [-> _].
    rewrite (N.div_mod index (MipLevels (m_desc t))) at 3 by lia. lia.
Qed.

(** ** Mapping mode *)

Lemma DetermineMapMode_table (t : D3D9CommonTexture) :
  (Format (m_desc t) = NULL_FORMAT ->
   DetermineMapMode t = D3D9_COMMON_TEXTURE_MAP_MODE_NONE)
  /\ (Format (m_desc t) <> NULL_FORMAT ->
      Pool (m_desc t) = D3DPOOL_SYSTEMMEM \/ Pool (m_desc t) = D3DPOOL_SCRATCH ->
      DetermineMapMode t = D3D9_COMMON_TEXTURE_MAP_MODE_SYSTEMMEM)
  /\ (Format (m_desc t) <> NULL_FORMAT ->
      Pool (m_desc t) <> D3DPOOL_SYSTEMMEM ->
      Pool (m_desc t) <> D3DPOOL_SCRATCH ->
      DetermineMapMode t = D3D9_COMMON_TEXTURE_MAP_MODE_BACKED).
Proof.
  unfold DetermineMapMode. repeat split; intros; repeat case_decide; tauto.
Qed.

(** C2, amended. For every description whose pool is SystemMemory or Scratch
    and whose format is not the placeholder, the computed mode is SystemMem,
    and these are the only descriptions with that mode; with the placeholder
    format the mode is None whatever the pool, and only then. *)
Theorem DetermineMapMode_system_pools (t : D3D9CommonTexture) :
  (DetermineMapMode t = D3D9_COMMON_TEXTURE_MAP_MODE_SYSTEMMEM <->
   Format (m_desc t) <> NULL_FORMAT
   /\ (Pool (m_desc t) = D3DPOOL_SYSTEMMEM \/ Pool (m_desc t) = D3DPOOL_SCRATCH))
  /\ (DetermineMapMode t = D3D9_COMMON_TEXTURE_MAP_MODE_NONE <->
      Format (m_desc t) = NULL_FORMAT).
Proof.
  unfold DetermineMapMode.
  destruct (decide (Format (m_desc t) = NULL_FORMAT)) as [Hfmt|Hfmt];
    [|destruct (decide (Pool (m_desc t) = D3DPOOL_SYSTEMMEM
                        \/ Pool (m_desc t) = D3DPOOL_SCRATCH)) as [Hpool|Hpool]];
    intuition congruence.
Qed.

(** ** Format fixup *)

Lemma RequiresFixup_iff (t : D3D9CommonTexture) :
  RequiresFixup t = true <-> Format (m_desc t) = R8G8B8.
Proof. unfold RequiresFixup. apply bool_decide_eq_true. Qed.

(** ** Render-pass layouts *)

(** C8, amended. [GetRTLayout()] returns the color-attachment-optimal layout
    exactly when the color view of render-target face 0 is present and its
    image has optimal tiling, and GENERAL otherwise, a null view included;
    [GetDepthLayout()] does the same with the depth view of face 0 and the
    depth-stencil-attachment-optimal layout. *)
Theorem layouts_follow_view_tiling (vs : D3D9ViewSet) :
  (GetRTLayout vs = VK_IMAGE_LAYOUT_COLOR_ATTACHMENT_OPTIMAL <->
   view_tiling (Color (FaceRenderTarget vs !!! 0%fin))
   = Some VK_IMAGE_TILING_OPTIMAL)
  /\ (GetRTLayout vs <> VK_IMAGE_LAYOUT_COLOR_ATTACHMENT_OPTIMAL ->
      GetRTLayout vs = VK_IMAGE_LAYOUT_GENERAL)
  /\ (GetDepthLayout vs = VK_IMAGE_LAYOUT_DEPTH_STENCIL_ATTACHMENT_OPTIMAL <->
      view_tiling (FaceDepth vs !!! 0%fin) = Some VK_IMAGE_TILING_OPTIMAL)
  /\ (GetDepthLayout vs <> VK_IMAGE_LAYOUT_DEPTH_STENCIL_ATTACHMENT_OPTIMAL ->
      GetDepthLayout vs = VK_IMAGE_LAYOUT_GENERAL).
Proof.
  unfold GetRTLayout, GetDepthLayout, view_tiling.
  destruct (Color (FaceRenderTarget vs !!! 0%fin)) as [rt|];
    destruct (FaceDepth vs !!! 0%fin) as [ds|]; simpl;
    repeat case_decide; repeat split; intros; congruence.
Qed.

(** ** Normalization of the description *)

Lemma NormalizeTextureProperties_keeps (pDesc desc : D3D9_COMMON_TEXTURE_DESC)
  (hr : HRESULT) :
  NormalizeTextureProperties pDesc = (hr, desc) ->
  Width desc = Width pDesc /\ Height desc = Height pDesc
  /\ Depth desc = Depth pDesc /\ ArraySize desc = ArraySize pDesc
  /\ Format desc = Format pDesc /\ Pool desc = Pool pDesc.
Proof.
  unfold NormalizeTextureProperties.
  repeat case_match; intros [= <- <-]; done.
Qed.

(** The count is that of a full chain: halving the largest dimension once per
    level, the last level is the first that is one texel wide. *)
Lemma computeMipLevelCount_last_level (w h d : UINT) :
  0 < N.max w (N.max h d) ->
  N.shiftr (N.max w (N.max h d)) (computeMipLevelCount w h d - 1) = 1
  /\ (forall level, level < computeMipLevelCount w h d - 1 ->
        1 < N.shiftr (N.max w (N.max h d)) level).
Proof.
  unfold computeMipLevelCount. set (m := N.max w (N.max h d)). intros Hm.
  replace (N.log2 m + 1 - 1) with (N.log2 m) by lia.
  destruct (N.log2_spec m Hm) as [Hlo Hhi].
  rewrite N.pow_succ_r' in Hhi. split.
  - rewrite N.shiftr_div_pow2.
    assert (Hpos : 0 < 2 ^ N.log2 m) by (apply N.neq_0_lt_0, N.pow_nonzero; lia).
    apply N.le_antisymm.
    + apply N.lt_succ_r. apply N.Div0.div_lt_upper_bound. lia.
    + apply N.div_le_lower_bound; lia.
  - intros level Hlevel. rewrite N.shiftr_div_pow2.
    assert (Hpow : 2 * 2 ^ level <= 2 ^ N.log2 m).
    { rewrite <- N.pow_succ_r'. apply N.pow_le_mono_r; lia. }
    assert (Hpos : 0 < 2 ^ level) by (apply N.neq_0_lt_0, N.pow_nonzero; lia).
    apply N.lt_le_trans with 2; [lia|].
    apply N.div_le_lower_bound; lia.
Qed.

(** C9. After [NormalizeTextureProperties] succeeds the mip-level count is at
    least 1, and when the automatic full chain was requested it is
    floor(log2(max(width, height, depth))) + 1. *)
Theorem NormalizeTextureProperties_mip_levels
  (pDesc desc : D3D9_COMMON_TEXTURE_DESC) :
  NormalizeTextureProperties pDesc = (D3D_OK, desc) ->
  1 <= MipLevels desc
  /\ (MipLevels pDesc = 0 ->
      MipLevels desc
      = N.log2 (N.max (Width desc) (N.max (Height desc) (Depth desc))) + 1)
  /\ (MipLevels pDesc <> 0 -> MipLevels desc = MipLevels pDesc).
Proof.
  intros Hnorm.
  destruct (NormalizeTextureProperties_keeps _ _ _ Hnorm)
    as (-> & -> & -> & _).
  revert Hnorm. unfold NormalizeTextureProperties, computeMipLevelCount.
  destruct (_ || _); [discriminate|].
  destruct (MipLevels pDesc =? 0) eqn:Hauto.
  - apply N.eqb_eq in Hauto.
    destruct (_ && _); [discriminate|]. intros [= <-]. simpl.
    split; [lia|]. split; [done|]. intros Hne. by destruct Hne.
  - apply N.eqb_neq in Hauto.
    destruct (_ && _); [discriminate|]. intros [= <-]. simpl.
    split; [lia|]. split; [intros H0; by destruct Hauto | done].
Qed.

(** ** What a call leaves alone *)

Lemma allocate_Ok (dev dev' : DxvkDevice) (id : N) :
  allocate dev = Ok (id, dev') ->
  id = dev_nextId dev /\ dev_nextId dev' = dev_nextId dev + 1.
Proof.
  unfold allocate. destruct (dev_budget dev =? 0); [discriminate|].
  intros [= <- <-]. done.
Qed.

Lemma createBuffer_Ok (dev dev' : DxvkDevice) (buf : DxvkBuffer) :
  createBuffer dev = Ok (buf, dev') ->
  buffer_id buf = dev_nextId dev /\ dev_nextId dev' = dev_nextId dev + 1.
Proof.
  unfold createBuffer. intros H. bind_inv H. destruct a as [id d].
  injection H as <- <-. simpl. by apply allocate_Ok.
Qed.

Lemma unchanged_refl (t : D3D9CommonTexture) : unchanged t t.
Proof. by repeat split. Qed.

Lemma unchanged_trans (t1 t2 t3 : D3D9CommonTexture) :
  unchanged t1 t2 -> unchanged t2 t3 -> unchanged t1 t3.
Proof.
  intros (Hd & Hty & Hm & Hi & Hr & Hb & Hx & Hl)
         (Hd' & Hty' & Hm' & Hi' & Hr' & Hb' & Hx' & Hl').
  repeat split; try congruence. intros image Himage. by apply Hr', Hr.
Qed.

Lemma CreateBufferSubresource_unchanged (i : UINT) (t t' : D3D9CommonTexture)
  (dev dev' : DxvkDevice) (b : bool) :
  CreateBufferSubresource i t dev = Ok (b, t', dev') ->
  unchanged t t'.
Proof.
  unfold CreateBufferSubresource. intros H. bind_inv H.
  destruct a as [buf|]; [injection H as <- <- <-; apply unchanged_refl|].
  bind_inv H. destruct a as [buf dev1]. simpl in H.
  bind_inv H. apply array_set_length in Ha1.
  destruct (RequiresFixup _).
  - bind_inv H. destruct a0 as [fixup dev2]. simpl in H.
    bind_inv H. apply array_set_length in Ha3. simpl in Ha3.
    injection H as <- <- <-. by repeat split.
  - injection H as <- <- <-. by repeat split.
Qed.

Lemma CreateBuffers_loop_unchanged (n : nat) (i : UINT)
  (t t' : D3D9CommonTexture) (dev dev' : DxvkDevice) :
  CreateBuffers_loop n i t dev = Ok (t', dev') -> unchanged t t'.
Proof.
  revert i t dev. induction n as [|n IH]; intros i t dev; simpl.
  - intros [= <- <-]. apply unchanged_refl.
  - intros H. bind_inv H. destruct a as [[b t1] dev1]. simpl in H.
    apply CreateBufferSubresource_unchanged in Ha. apply IH in H.
    by eapply unchanged_trans.
Qed.

Lemma GetResolveImage_unchanged (t t' : D3D9CommonTexture)
  (dev dev' : DxvkDevice) (h : Rc DxvkImage) :
  GetResolveImage t dev = Ok (h, t', dev') -> unchanged t t'.
Proof.
  unfold GetResolveImage. destruct (m_resolveImage t) as [image|] eqn:Hres.
  - intros [= <- <- <-]. apply unchanged_refl.
  - intros H. bind_inv H. destruct a as [image dev1]. simpl in H.
    injection H as <- <- <-. repeat split; try done.
    simpl. intros image'. by rewrite Hres.
Qed.

Lemma RecreateSampledView_unchanged (Lod : UINT) (t t' : D3D9CommonTexture)
  (dev dev' : DxvkDevice) :
  RecreateSampledView Lod t dev = Ok (t', dev') -> unchanged t t'.
Proof.
  unfold RecreateSampledView. intros H. bind_inv H.
  destruct a as [views dev1]. injection H as <- <-. by repeat split.
Qed.

Lemma invoke_unchanged (c : Call) (t t' : D3D9CommonTexture)
  (dev dev' : DxvkDevice) :
  invoke c t dev = Ok (t', dev') -> unchanged t t'.
Proof.
  destruct c as [i f|i|i| | |Lod]; simpl; intros H.
  - bind_inv H. injection H as <- <-. unfold SetLockFlags in Ha.
    bind_inv Ha. apply array_set_length in Ha0.
    injection Ha as <-. by repeat split.
  - bind_inv H. injection H as <- <-. unfold DestroyBufferSubresource in Ha.
    bind_inv Ha. bind_inv Ha. simpl in Ha1.
    apply array_set_length in Ha0, Ha1.
    injection Ha as <-. by repeat split.
  - bind_inv H. destruct a as [[b t1] dev1]. injection H as <- <-.
    by eapply CreateBufferSubresource_unchanged.
  - by eapply CreateBuffers_loop_unchanged.
  - bind_inv H. destruct a as [[h t1] dev1]. injection H as <- <-.
    by eapply GetResolveImage_unchanged.
  - by eapply RecreateSampledView_unchanged.
Qed.

Lemma later_unchanged (t t' : D3D9CommonTexture) :
  later t t' -> unchanged t t'.
Proof.
  induction 1 as [|c t1 t2 dev dev' _ IH Hcall]; [apply unchanged_refl|].
  eapply unchanged_trans; [exact IH|]. by eapply invoke_unchanged.
Qed.

Lemma later_wf (MaxSubresources : nat) (t t' : D3D9CommonTexture) :
  texture_wf MaxSubresources t -> later t t' -> texture_wf MaxSubresources t'.
Proof.
  intros (Hb & Hx & Hl) (_ & _ & _ & _ & _ & Hb' & Hx' & Hl')%later_unchanged.
  unfold texture_wf. by rewrite Hb', Hx', Hl'.
Qed.

(** ** The map mode is fixed at construction *)

Lemma DetermineMapMode_desc (t t' : D3D9CommonTexture) :
  Format (m_desc t) = Format (m_desc t') ->
  Pool (m_desc t) = Pool (m_desc t') ->
  DetermineMapMode t = DetermineMapMode t'.
Proof. unfold DetermineMapMode. by intros -> ->. Qed.

Lemma construct_Ok (MaxSubresources : nat) (pDesc : D3D9_COMMON_TEXTURE_DESC)
  (ResourceType : D3DRESOURCETYPE) (dev dev' : DxvkDevice)
  (t : D3D9CommonTexture) :
  construct MaxSubresources pDesc ResourceType dev = Ok (t, dev') ->
  m_mapMode t = DetermineMapMode t
  /\ Format (m_desc t) = Format pDesc
  /\ Pool (m_desc t) = Pool pDesc
  /\ texture_wf MaxSubresources t.
Proof.
  unfold construct, texture_wf.
  destruct (NormalizeTextureProperties pDesc) as [hr desc] eqn:Hnorm.
  apply NormalizeTextureProperties_keeps in Hnorm
    as (_ & _ & _ & _ & Hfmt & Hpool).
  destruct (decide (hr = D3D_OK /\ _)) as [_|_]; [|discriminate].
  destruct (decide (m_mapMode _ = _)) as [_|_].
  - intros [= <- <-]. simpl. rewrite !length_replicate. done.
  - intros H. bind_inv H. destruct a as [image dev1]. simpl in H.
    bind_inv H. destruct a as [views dev2]. injection H as <- <-.
    simpl. rewrite !length_replicate. done.
Qed.

(** C1. The map mode is a function of the description's format and pool
    alone: None for the placeholder format, else SystemMem for the
    SystemMemory and Scratch pools, else Backed.  A texture constructed from a
    description has, at construction and after any sequence of calls, the
    mode [DetermineMapMode] computes from that description's format and
    pool. *)
Theorem GetMapMode_DetermineMapMode (MaxSubresources : nat)
  (pDesc : D3D9_COMMON_TEXTURE_DESC) (ResourceType : D3DRESOURCETYPE)
  (dev dev' : DxvkDevice) (t0 t : D3D9CommonTexture) :
  construct MaxSubresources pDesc ResourceType dev = Ok (t0, dev') ->
  later t0 t ->
  GetMapMode t = DetermineMapMode t
  /\ GetMapMode t = GetMapMode t0
  /\ Format (Desc t) = Format pDesc
  /\ Pool (Desc t) = Pool pDesc
  /\ GetMapMode t
     = (if decide (Format pDesc = NULL_FORMAT)
        then D3D9_COMMON_TEXTURE_MAP_MODE_NONE
        else if decide (Pool pDesc = D3DPOOL_SYSTEMMEM
                        \/ Pool pDesc = D3DPOOL_SCRATCH)
        then D3D9_COMMON_TEXTURE_MAP_MODE_SYSTEMMEM
        else D3D9_COMMON_TEXTURE_MAP_MODE_BACKED)
  /\ (forall u u' : D3D9CommonTexture,
        Format (Desc u) = Format (Desc u') -> Pool (Desc u) = Pool (Desc u') ->
        DetermineMapMode u = DetermineMapMode u').
Proof.
  intros Hnew Hlater.
  apply construct_Ok in Hnew as (Hmode & Hfmt & Hpool & _).
  apply later_unchanged in Hlater as (Hd & _ & Hm & _).
  unfold GetMapMode, Desc.
  assert (Hsame : DetermineMapMode t = DetermineMapMode t0)
    by (apply DetermineMapMode_desc; by rewrite Hd).
  split; [congruence|]. split; [done|].
  split; [by rewrite Hd|]. split; [by rewrite Hd|].
  split; [|apply DetermineMapMode_desc].
  rewrite Hm, Hmode. unfold DetermineMapMode. by rewrite Hfmt, Hpool.
Qed.

(** ** Creating the buffers of one subresource *)

Lemma CreateBufferSubresource_completes (MaxSubresources : nat)
  (t : D3D9CommonTexture) (dev : DxvkDevice) (i : UINT) :
  texture_wf MaxSubresources t ->
  (N.to_nat i < MaxSubresources)%nat ->
  2 <= dev_budget dev ->
  exists b t' dev', CreateBufferSubresource i t dev = Ok (b, t', dev').
Proof.
  intros (Hb & Hx & _) Hi Hbudget. unfold CreateBufferSubresource.
  destruct (array_get_Ok (m_buffers t) i) as [[buf|] ->]; [lia| |]; simpl;
    [eauto|].
  unfold createBuffer, allocate.
  destruct (dev_budget dev =? 0) eqn:Hz; [apply N.eqb_eq in Hz; lia|]. simpl.
  rewrite array_set_Ok by lia. simpl.
  destruct (RequiresFixup _); [|eauto].
  destruct (dev_budget dev - 1 =? 0) eqn:Hz'; [apply N.eqb_eq in Hz'; lia|].
  simpl. rewrite array_set_Ok by lia. simpl. eauto.
Qed.

(** C5. [CreateBufferSubresource(i)] is idempotent.  When a call has
    completed, a second call right after it allocates nothing, returns [false]
    and leaves texture and device as they were.  On a subresource without a
    mapping buffer the first call is the one that allocates: it returns
    [true], stores a new mapping buffer in [m_buffers] and, for a format that
    requires fixup, a second, different buffer in [m_fixupBuffers], which is
    then the copy buffer; without fixup it leaves [m_fixupBuffers] alone.  No
    other subresource is touched.  If the mapping buffer was already there the
    first call, too, returns [false] and changes nothing. *)
Theorem CreateBufferSubresource_twice (i : UINT) (t t1 : D3D9CommonTexture)
  (dev dev1 : DxvkDevice) (b : bool) :
  CreateBufferSubresource i t dev = Ok (b, t1, dev1) ->
  CreateBufferSubresource i t1 dev1 = Ok (false, t1, dev1)
  /\ (b = true <-> GetMappingBuffer i t = Ok None)
  /\ (b = false -> t1 = t /\ dev1 = dev)
  /\ (b = true ->
      exists buf,
        GetMappingBuffer i t1 = Ok (Some buf)
        /\ buffer_id buf = dev_nextId dev
        /\ if RequiresFixup t
           then exists fixup,
                  array_get (m_fixupBuffers t1) i = Ok (Some fixup)
                  /\ GetCopyBuffer i t1 = Ok (Some fixup)
                  /\ buffer_id fixup = dev_nextId dev + 1
                  /\ fixup <> buf
                  /\ dev_nextId dev1 = dev_nextId dev + 2
           else m_fixupBuffers t1 = m_fixupBuffers t
                /\ GetCopyBuffer i t1 = Ok (Some buf)
                /\ dev_nextId dev1 = dev_nextId dev + 1)
  /\ (forall j, j <> i ->
        GetMappingBuffer j t1 = GetMappingBuffer j t
        /\ array_get (m_fixupBuffers t1) j = array_get (m_fixupBuffers t) j
        /\ GetCopyBuffer j t1 = GetCopyBuffer j t)
  /\ (forall j, GetLockFlags j t1 = GetLockFlags j t)
  /\ exists buf, GetMappingBuffer i t1 = Ok (Some buf).
Proof.
  unfold CreateBufferSubresource, GetMappingBuffer, GetLockFlags.
  intros H. bind_inv H. destruct a as [buf|].
  - injection H as <- <- <-. rewrite Ha. simpl.
    split; [done|]. split; [split; intros; congruence|].
    split; [done|]. split; [discriminate|]. split; [done|].
    split; [done|eauto].
  - bind_inv H. destruct a as [buf dev2]. simpl in H. bind_inv H.
    apply createBuffer_Ok in Ha0 as [Hbuf Hid].
    pose proof (array_get_set_eq _ _ _ _ Ha1) as Hget.
    assert (Hother : forall j, j <> i ->
               array_get a j = array_get (m_buffers t) j)
      by (intros j Hj; by apply (array_get_set_ne _ _ _ _ _ Ha1)).
    change (RequiresFixup (with_buffers a t)) with (RequiresFixup t) in H.
    unfold GetCopyBuffer. destruct (RequiresFixup t) eqn:Hfix.
    + bind_inv H. destruct a0 as [fixup dev3]. simpl in H. bind_inv H.
      apply createBuffer_Ok in Ha0 as [Hfixup Hid'].
      pose proof (array_get_set_eq _ _ _ _ Ha2) as Hgetx.
      assert (Hotherx : forall j, j <> i ->
                 array_get a0 j = array_get (m_fixupBuffers t) j)
        by (intros j Hj; by apply (array_get_set_ne _ _ _ _ _ Ha2)).
      injection H as <- <- <-.
      change (RequiresFixup (with_fixupBuffers a0 (with_buffers a t)))
        with (RequiresFixup t).
      rewrite Hfix. simpl. rewrite Hget. simpl.
      split; [done|]. split; [done|]. split; [discriminate|].
      split.
      { intros _. exists buf. split; [done|]. split; [done|].
        exists fixup. split; [done|]. split; [done|]. split; [lia|].
        split; [|lia]. intros ->. lia. }
      split; [|split; [done|eauto]].
      intros j Hj. split; [by apply Hother|]. split; by apply Hotherx.
    + injection H as <- <- <-.
      change (RequiresFixup (with_buffers a t)) with (RequiresFixup t).
      rewrite Hfix. simpl. rewrite Hget. simpl.
      split; [done|]. split; [done|]. split; [discriminate|].
      split.
      { intros _. exists buf. split; [done|]. split; [done|]. split; [done|].
        split; [done|lia]. }
      split; [|split; [done|eauto]].
      intros j Hj. split; [by apply Hother|]. split; [done|by apply Hother].
Qed.

(** ** The resolve image *)

Lemma GetResolveImage_completes (t : D3D9CommonTexture) (dev : DxvkDevice)
  (image : DxvkImage) :
  m_image t = Some image ->
  1 <= dev_budget dev ->
  exists h t' dev', GetResolveImage t dev = Ok (h, t', dev').
Proof.
  intros Himage Hbudget. unfold GetResolveImage.
  destruct (m_resolveImage t); [eauto|].
  unfold CreateResolveImage, createImage, allocate. rewrite Himage.
  destruct (dev_budget dev =? 0) eqn:Hz; [apply N.eqb_eq in Hz; lia|].
  simpl. eauto.
Qed.

(** C6. [GetResolveImage()] is lazily memoized: a call that completes returns
    a live image and constructs at most one; from then on, whatever calls are
    made on the texture in between, every call returns that same handle and
    constructs nothing, leaving texture and device as they were. *)
Theorem GetResolveImage_memoized (t t1 : D3D9CommonTexture)
  (dev dev1 : DxvkDevice) (h : Rc DxvkImage) :
  GetResolveImage t dev = Ok (h, t1, dev1) ->
  (exists image, h = Some image)
  /\ allocations dev dev1 <= 1
  /\ (m_resolveImage t <> None -> t1 = t /\ dev1 = dev)
  /\ (forall t2 dev2, later t1 t2 ->
        GetResolveImage t2 dev2 = Ok (h, t2, dev2)).
Proof.
  intros Hcall.
  assert (Hfirst : (exists image, h = Some image) /\ m_resolveImage t1 = h
                   /\ allocations dev dev1 <= 1
                   /\ (m_resolveImage t <> None -> t1 = t /\ dev1 = dev)).
  { revert Hcall. unfold GetResolveImage, allocations.
    destruct (m_resolveImage t) as [image|] eqn:Hres.
    - intros [= <- <- <-]. rewrite Hres. split; [eauto|].
      split; [done|]. split; [lia|done].
    - intros H. bind_inv H. destruct a as [created dev2]. simpl in H.
      injection H as <- <- <-. unfold CreateResolveImage in Ha.
      destruct (m_image t) as [backing|]; [|discriminate].
      bind_inv Ha. destruct a as [resolve dev3]. injection Ha as <- <-.
      unfold createImage in Ha0. bind_inv Ha0. destruct a as [id dev4].
      injection Ha0 as <- <-. apply allocate_Ok in Ha as [_ Hid].
      split; [eauto|]. split; [done|]. split; [lia|done]. }
  destruct Hfirst as ([image ->] & Hres1 & Halloc & Hkeep).
  split; [eauto|]. split; [done|]. split; [done|].
  intros t2 dev2 Hlater.
  apply later_unchanged in Hlater as (_ & _ & _ & _ & Hres & _).
  unfold GetResolveImage. by rewrite (Hres image Hres1).
Qed.

(** ** The statements at concrete textures *)

Lemma bare_texture_wf (desc : D3D9_COMMON_TEXTURE_DESC) :
  texture_wf 6 (bare_texture desc).
Proof. by repeat split. Qed.

(** Scenario A of the spec: four subresources, and [CreateBuffers] gives each
    of them a mapping buffer and none a fixup buffer. *)
Example scenario_A_buffers :
  exists t dev t' dev',
    construct 6 scenario_A_desc D3DRTYPE_TEXTURE plain_device = Ok (t, dev)
    /\ GetMapMode t = D3D9_COMMON_TEXTURE_MAP_MODE_BACKED
    /\ CountSubresources t = 4
    /\ CreateBuffers t dev = Ok (t', dev')
    /\ length (filter is_Some (m_buffers t')) = 4%nat
    /\ length (filter is_Some (m_fixupBuffers t')) = 0%nat.
Proof. do 4 eexists. vm_compute. repeat split; reflexivity. Qed.

(** Scenario B of the spec: once created, the copy buffer of a texture in the
    fixup format is its fixup buffer and differs from the mapping buffer. *)
Example scenario_B_buffers :
  exists t dev mapping copy,
    CreateBufferSubresource 0 (bare_texture (sysmem_desc R8G8B8 1 1))
      plain_device = Ok (true, t, dev)
    /\ RequiresFixup t = true
    /\ GetMappingBuffer 0 t = Ok (Some mapping)
    /\ GetCopyBuffer 0 t = Ok (Some copy)
    /\ mapping <> copy.
Proof. do 4 eexists. vm_compute. repeat split; try reflexivity. discriminate. Qed.

(** C2, counterexample.  A description in the SystemMemory pool with the
    placeholder format gets the mode None, not SystemMem. *)
Lemma DetermineMapMode_placeholder_in_system_pool :
  Pool (m_desc (bare_texture (sysmem_desc NULL_FORMAT 1 1))) = D3DPOOL_SYSTEMMEM
  /\ DetermineMapMode (bare_texture (sysmem_desc NULL_FORMAT 1 1))
     = D3D9_COMMON_TEXTURE_MAP_MODE_NONE
  /\ DetermineMapMode (bare_texture (sysmem_desc NULL_FORMAT 1 1))
     <> D3D9_COMMON_TEXTURE_MAP_MODE_SYSTEMMEM.
Proof. split; [reflexivity|]. split; [reflexivity | discriminate]. Qed.

Lemma DetermineMapMode_system_pools_witness :
  DetermineMapMode (bare_texture (sysmem_desc R8G8B8 1 1))
  = D3D9_COMMON_TEXTURE_MAP_MODE_SYSTEMMEM
  /\ DetermineMapMode managed_placeholder_texture
     = D3D9_COMMON_TEXTURE_MAP_MODE_NONE.
Proof.
  split.
  - apply (DetermineMapMode_system_pools
             (bare_texture (sysmem_desc R8G8B8 1 1))).
    split; [discriminate | left; reflexivity].
  - apply (DetermineMapMode_system_pools managed_placeholder_texture).
    reflexivity.
Defined.

(** C3, counterexample.  A texture in the fixup format whose subresource 0 has
    two distinct buffers satisfies the stated equality; after
    [DestroyBufferSubresource(0)] it still requires fixup, but
    [GetCopyBuffer(0)] and [GetMappingBuffer(0)] are the same null handle. *)
Lemma RequiresFixup_after_destroy :
  RequiresFixup fixup_texture_with_buffers = true
  /\ GetCopyBuffer 0 fixup_texture_with_buffers
     <> GetMappingBuffer 0 fixup_texture_with_buffers
  /\ exists t',
       DestroyBufferSubresource 0 fixup_texture_with_buffers = Ok t'
       /\ RequiresFixup t' = true
       /\ GetCopyBuffer 0 t' = Ok None
       /\ GetMappingBuffer 0 t' = Ok None
       /\ ~ (RequiresFixup t' = true <->
             GetCopyBuffer 0 t' <> GetMappingBuffer 0 t').
Proof.
  split; [reflexivity|]. split; [discriminate|].
  eexists. split; [reflexivity|]. split; [reflexivity|].
  split; [reflexivity|]. split; [reflexivity|].
  intros [Hfix _]. by apply Hfix.
Qed.

(** C4, counterexample.  With 65536 faces and 65536 mip levels the product
    wraps to 0: [CountSubresources()] is 0, not arraySize * mipLevels, and
    [CalcSubresource(1, 0)] = 65536 lies outside [0, CountSubresources()). *)
Lemma CalcSubresource_wraps :
  1 < ArraySize (m_desc (bare_texture (sysmem_desc (OtherFormat 21) 65536 65536)))
  /\ 0 < MipLevels (m_desc (bare_texture (sysmem_desc (OtherFormat 21) 65536 65536)))
  /\ CountSubresources (bare_texture (sysmem_desc (OtherFormat 21) 65536 65536))
     = 0
  /\ CountSubresources (bare_texture (sysmem_desc (OtherFormat 21) 65536 65536))
     <> 65536 * 65536
  /\ CalcSubresource (bare_texture (sysmem_desc (OtherFormat 21) 65536 65536)) 1 0
     = 65536
  /\ ~ (CalcSubresource (bare_texture (sysmem_desc (OtherFormat 21) 65536 65536)) 1 0
        < CountSubresources
            (bare_texture (sysmem_desc (OtherFormat 21) 65536 65536))).
Proof. vm_compute. repeat split; try reflexivity; discriminate. Qed.

Lemma CalcSubresource_bijection_witness :
  ArraySize (m_desc (bare_texture (sysmem_desc (OtherFormat 21) 6 4)))
  * MipLevels (m_desc (bare_texture (sysmem_desc (OtherFormat 21) 6 4)))
  < 2 ^ 32
  /\ CountSubresources (bare_texture (sysmem_desc (OtherFormat 21) 6 4)) = 6 * 4.
Proof.
  split; [reflexivity|].
  apply (CalcSubresource_bijection
           (bare_texture (sysmem_desc (OtherFormat 21) 6 4))).
  reflexivity.
Defined.

Lemma CreateBufferSubresource_twice_witness :
  GetMappingBuffer 0 (bare_texture (sysmem_desc R8G8B8 1 1)) = Ok None
  /\ exists t1 dev1 buf fixup,
       CreateBufferSubresource 0 (bare_texture (sysmem_desc R8G8B8 1 1))
         plain_device = Ok (true, t1, dev1)
       /\ CreateBufferSubresource 0 t1 dev1 = Ok (false, t1, dev1)
       /\ GetMappingBuffer 0 t1 = Ok (Some buf)
       /\ GetCopyBuffer 0 t1 = Ok (Some fixup)
       /\ fixup <> buf.
Proof.
  split; [reflexivity|].
  assert (H : exists t1 dev1,
             CreateBufferSubresource 0 (bare_texture (sysmem_desc R8G8B8 1 1))
               plain_device = Ok (true, t1, dev1))
    by (vm_compute; eauto).
  destruct H as (t1 & dev1 & H).
  destruct (CreateBufferSubresource_twice _ _ _ _ _ _ H)
    as (Hsecond & _ & _ & Hfirst & _).
  destruct (Hfirst eq_refl) as (buf & Hmap & _ & Hfixup).
  change (RequiresFixup (bare_texture (sysmem_desc R8G8B8 1 1))) with true
    in Hfixup.
  destruct Hfixup as (fixup & _ & Hcopy & _ & Hne & _).
  exists t1, dev1, buf, fixup.
  split; [exact H|]. split; [exact Hsecond|]. split; [exact Hmap|].
  split; [exact Hcopy | exact Hne].
Defined.

(** C8, counterexample.  A texture whose image has optimal tiling but is only
    sampled has no view in render-target face 0 and none in depth face 0:
    both layouts are GENERAL. *)
Lemma layouts_of_sampled_only_texture :
  (tiling <$> (image_info <$> GetImage sampled_only_texture))
  = Some VK_IMAGE_TILING_OPTIMAL
  /\ view_tiling (Color (Sample (GetViews sampled_only_texture)))
     = Some VK_IMAGE_TILING_OPTIMAL
  /\ GetRTLayout (GetViews sampled_only_texture) = VK_IMAGE_LAYOUT_GENERAL
  /\ GetRTLayout (GetViews sampled_only_texture)
     <> VK_IMAGE_LAYOUT_COLOR_ATTACHMENT_OPTIMAL
  /\ GetDepthLayout (GetViews sampled_only_texture) = VK_IMAGE_LAYOUT_GENERAL
  /\ GetDepthLayout (GetViews sampled_only_texture)
     <> VK_IMAGE_LAYOUT_DEPTH_STENCIL_ATTACHMENT_OPTIMAL.
Proof. vm_compute. repeat split; try reflexivity; discriminate. Qed.

Lemma NormalizeTextureProperties_mip_levels_witness :
  NormalizeTextureProperties (with_MipLevels 0 scenario_A_desc)
  = (D3D_OK, with_MipLevels 9 scenario_A_desc)
  /\ 1 <= MipLevels (with_MipLevels 9 scenario_A_desc).
Proof.
  split; [reflexivity|].
  apply (NormalizeTextureProperties_mip_levels
           (with_MipLevels 0 scenario_A_desc)
           (with_MipLevels 9 scenario_A_desc)).
  reflexivity.
Defined.

Lemma SetLockFlags_GetLockFlags_witness :
  texture_wf 6 (bare_texture (sysmem_desc R8G8B8 1 1))
  /\ (N.to_nat 2 < 6)%nat
  /\ exists t',
       SetLockFlags 2 16 (bare_texture (sysmem_desc R8G8B8 1 1)) = Ok t'
       /\ GetLockFlags 2 t' = Ok 16.
Proof.
  assert (Hwf : texture_wf 6 (bare_texture (sysmem_desc R8G8B8 1 1)))
    by apply bare_texture_wf.
  assert (Hi : (N.to_nat 2 < 6)%nat) by (vm_compute; lia).
  split; [exact Hwf|]. split; [exact Hi|].
  destruct (SetLockFlags_GetLockFlags 6 _ 2 16 Hwf Hi) as (t' & Hset & Hget & _).
  exists t'. split; [exact Hset | exact Hget].
Defined.

Lemma DestroyBufferSubresource_frame_witness :
  texture_wf 6 two_level_fixup_texture
  /\ (N.to_nat 0 < 6)%nat
  /\ GetMappingBuffer 0 two_level_fixup_texture
     = Ok (Some {| buffer_id := 100 |})
  /\ GetCopyBuffer 0 two_level_fixup_texture
     = Ok (Some {| buffer_id := 101 |})
  /\ exists t',
       DestroyBufferSubresource 0 two_level_fixup_texture = Ok t'
       /\ GetMappingBuffer 0 t' = Ok None
       /\ array_get (m_fixupBuffers t') 0 = Ok None
       /\ GetMappingBuffer 1 t' = Ok (Some {| buffer_id := 102 |})
       /\ GetCopyBuffer 1 t' = Ok (Some {| buffer_id := 103 |})
       /\ GetLockFlags 0 t' = Ok 16
       /\ GetLockFlags 1 t' = Ok 32
       /\ Desc t' = Desc two_level_fixup_texture.
Proof.
  assert (Hwf : texture_wf 6 two_level_fixup_texture)
    by (repeat split; reflexivity).
  assert (Hi : (N.to_nat 0 < 6)%nat) by (vm_compute; lia).
  assert (Hne : (1 : UINT) <> 0) by discriminate.
  split; [exact Hwf|]. split; [exact Hi|].
  split; [reflexivity|]. split; [reflexivity|].
  destruct (DestroyBufferSubresource_frame 6 _ 0 Hwf Hi)
    as (t' & Hcall & Hmap & Hfix & Hmaps & _ & Hcopies & Hflags & Hdesc & _).
  exists t'. split; [exact Hcall|]. split; [exact Hmap|].
  split; [exact Hfix|].
  split; [exact (eq_trans (Hmaps 1 Hne) eq_refl)|].
  split; [exact (eq_trans (Hcopies 1 Hne) eq_refl)|].
  split; [exact (eq_trans (Hflags 0) eq_refl)|].
  split; [exact (eq_trans (Hflags 1) eq_refl) | exact Hdesc].
Defined.

Lemma GetResolveImage_memoized_witness :
  exists h t1 dev1,
    GetResolveImage sampled_only_texture plain_device = Ok (h, t1, dev1)
    /\ GetResolveImage t1 dev1 = Ok (h, t1, dev1).
Proof.
  assert (H : exists h t1 dev1,
             GetResolveImage sampled_only_texture plain_device
             = Ok (h, t1, dev1))
    by (vm_compute; eauto).
  destruct H as (h & t1 & dev1 & H). exists h, t1, dev1. split; [exact H|].
  destruct (GetResolveImage_memoized _ _ _ _ _ H) as (_ & _ & _ & Hagain).
  apply Hagain. apply later_now.
Defined.

Lemma GetMapMode_DetermineMapMode_witness :
  construct 6 (sysmem_desc R8G8B8 1 1) D3DRTYPE_TEXTURE plain_device
  = Ok (bare_texture (sysmem_desc R8G8B8 1 1), plain_device)
  /\ later (bare_texture (sysmem_desc R8G8B8 1 1))
           (with_lockFlags [16; 0; 0; 0; 0; 0]
              (bare_texture (sysmem_desc R8G8B8 1 1)))
  /\ GetMapMode (with_lockFlags [16; 0; 0; 0; 0; 0]
                   (bare_texture (sysmem_desc R8G8B8 1 1)))
     = DetermineMapMode (with_lockFlags [16; 0; 0; 0; 0; 0]
                           (bare_texture (sysmem_desc R8G8B8 1 1))).
Proof.
  assert (Hnew : construct 6 (sysmem_desc R8G8B8 1 1) D3DRTYPE_TEXTURE
                   plain_device
                 = Ok (bare_texture (sysmem_desc R8G8B8 1 1), plain_device))
    by (vm_compute; reflexivity).
  assert (Hlater : later (bare_texture (sysmem_desc R8G8B8 1 1))
                     (with_lockFlags [16; 0; 0; 0; 0; 0]
                        (bare_texture (sysmem_desc R8G8B8 1 1)))).
  { apply (later_call _ (CallSetLockFlags 0 16)
             (bare_texture (sysmem_desc R8G8B8 1 1)) _
             plain_device plain_device).
    - apply later_now.
    - vm_compute; reflexivity. }
  split; [exact Hnew|]. split; [exact Hlater|].
  destruct (GetMapMode_DetermineMapMode 6 _ _ _ _ _ _ Hnew Hlater)
    as (Hmode & _).
  exact Hmode.
Defined.


(** * Further properties of the header's methods *)

(** ** Array writes *)

Lemma array_get_Undefined {T : Type} (a : list T) (i : UINT) :
  (length a <= N.to_nat i)%nat -> array_get a i = Undefined.
Proof. intros Hi. unfold array_get. by rewrite lookup_ge_None_2. Qed.

Lemma array_set_Undefined {T : Type} (a : list T) (i : UINT) (x : T) :
  (length a <= N.to_nat i)%nat -> array_set a i x = Undefined.
Proof. intros Hi. unfold array_set. rewrite decide_False; [done|lia]. Qed.

Lemma array_get_inv' {T : Type} (a : list T) (i : UINT) (x : T) :
  array_get a i = Ok x -> a !! N.to_nat i = Some x.
Proof. unfold array_get. destruct (a !! N.to_nat i); congruence. Qed.

Lemma with_lockFlags_same (t : D3D9CommonTexture) :
  with_lockFlags (m_lockFlags t) t = t.
Proof. by destruct t. Qed.

Lemma with_resolveImage_same (t : D3D9CommonTexture) :
  with_resolveImage (m_resolveImage t) t = t.
Proof. by destruct t. Qed.

Lemma SetLockFlags_unfold (t : D3D9CommonTexture) (i : UINT) (f : DWORD) :
  SetLockFlags i f t
  = if decide (N.to_nat i < length (m_lockFlags t))%nat
    then Ok (with_lockFlags (<[N.to_nat i := f]> (m_lockFlags t)) t)
    else Undefined.
Proof. unfold SetLockFlags, array_set. by case_decide. Qed.

Lemma DestroyBufferSubresource_unfold (t : D3D9CommonTexture) (i : UINT) :
  DestroyBufferSubresource i t
  = if decide (N.to_nat i < length (m_buffers t))%nat
    then if decide (N.to_nat i < length (m_fixupBuffers t))%nat
         then Ok (with_fixupBuffers (<[N.to_nat i := None]> (m_fixupBuffers t))
                    (with_buffers (<[N.to_nat i := None]> (m_buffers t)) t))
         else Undefined
    else Undefined.
Proof.
  unfold DestroyBufferSubresource, array_set.
  case_decide; simpl; [|done]. by case_decide.
Qed.

(** Decides the range tests of an unfolded sequence of array writes. *)
Ltac range_cases :=
  repeat (simpl; rewrite ?SetLockFlags_unfold, ?DestroyBufferSubresource_unfold;
          simpl; rewrite ?length_insert;
          first [ rewrite decide_True by done
                | rewrite decide_False by done
                | case_decide ]);
  simpl.

(** ** Lock flags: how writes compose *)

(** X1. Writing the lock flags of a subresource twice is the same as writing
    the second value only; out of range both sides are undefined. *)
Theorem SetLockFlags_overwrite (t : D3D9CommonTexture) (i : UINT) (f g : DWORD) :
  SetLockFlags i f t ≫= SetLockFlags i g = SetLockFlags i g t.
Proof.
  range_cases; [|done]. by rewrite list_insert_insert_eq.
Qed.

(** X2. Writes of the lock flags of two different subresources commute. *)
Theorem SetLockFlags_commute (t : D3D9CommonTexture) (i j : UINT)
  (f g : DWORD) :
  i <> j ->
  SetLockFlags i f t ≫= SetLockFlags j g
  = SetLockFlags j g t ≫= SetLockFlags i f.
Proof.
  intros Hne. assert (Hnat : N.to_nat i <> N.to_nat j) by lia.
  range_cases; try done. by rewrite list_insert_insert_ne.
Qed.

(** X3. Writing back the lock flags just read leaves the texture as it is. *)
Theorem SetLockFlags_of_GetLockFlags (t : D3D9CommonTexture) (i : UINT)
  (f : DWORD) :
  GetLockFlags i t = Ok f -> SetLockFlags i f t = Ok t.
Proof.
  unfold GetLockFlags, array_get, SetLockFlags.
  destruct (m_lockFlags t !! N.to_nat i) as [x|] eqn:Hlook; [|discriminate].
  intros [= ->]. rewrite array_set_Ok by (by eapply lookup_lt_Some).
  simpl. rewrite list_insert_id by done. by rewrite with_lockFlags_same.
Qed.

(** ** Destroying buffers: how calls compose *)

(** X4. [DestroyBufferSubresource] is idempotent: destroying the buffers of a
    subresource twice is the same as destroying them once. *)
Theorem DestroyBufferSubresource_idempotent (t : D3D9CommonTexture) (i : UINT) :
  DestroyBufferSubresource i t ≫= DestroyBufferSubresource i
  = DestroyBufferSubresource i t.
Proof.
  range_cases; try done.
  unfold with_fixupBuffers, with_buffers. simpl.
  by rewrite !list_insert_insert_eq.
Qed.

(** X5. Destroying the buffers of two subresources gives the same texture in
    either order, and is undefined in either order if one index is out of
    range. *)
Theorem DestroyBufferSubresource_commute (t : D3D9CommonTexture) (i j : UINT) :
  DestroyBufferSubresource i t ≫= DestroyBufferSubresource j
  = DestroyBufferSubresource j t ≫= DestroyBufferSubresource i.
Proof.
  destruct (decide (i = j)) as [->|Hne]; [done|].
  assert (Hnat : N.to_nat i <> N.to_nat j) by lia.
  range_cases; try done.
  unfold with_fixupBuffers, with_buffers. simpl.
  by rewrite (list_insert_insert_ne (m_buffers t)),
             (list_insert_insert_ne (m_fixupBuffers t)).
Qed.

(** X6. Writing lock flags and destroying buffers are independent: the two
    calls give the same texture in either order, for any two subresources. *)
Theorem SetLockFlags_DestroyBufferSubresource_commute (t : D3D9CommonTexture)
  (i j : UINT) (f : DWORD) :
  SetLockFlags i f t ≫= DestroyBufferSubresource j
  = DestroyBufferSubresource j t ≫= SetLockFlags i f.
Proof. range_cases; done. Qed.

(** X7. After [DestroyBufferSubresource(i)] the copy buffer of [i] is null
    whether or not the format requires fixup, and so is the mapping buffer. *)
Theorem GetCopyBuffer_after_destroy (t t' : D3D9CommonTexture) (i : UINT) :
  DestroyBufferSubresource i t = Ok t' ->
  GetCopyBuffer i t' = Ok None /\ GetMappingBuffer i t' = Ok None.
Proof.
  rewrite DestroyBufferSubresource_unfold.
  destruct (decide (N.to_nat i < length (m_buffers t))%nat) as [Hb|];
    [|discriminate].
  destruct (decide (N.to_nat i < length (m_fixupBuffers t))%nat) as [Hx|];
    [|discriminate].
  intros [= <-]. unfold GetCopyBuffer, GetMappingBuffer, array_get. simpl.
  rewrite !list_lookup_insert_eq by done. by destruct (RequiresFixup _).
Qed.

(** ** Array bounds *)

(** X8. The indexed methods are defined exactly for indices below
    [MaxSubresources], the size of the arrays: [CountSubresources()] plays no
    part, and past the arrays every one of them is undefined. *)
Theorem indexed_methods_bounds (MaxSubresources : nat) (t : D3D9CommonTexture)
  (i : UINT) (f : DWORD) :
  texture_wf MaxSubresources t ->
  ((N.to_nat i < MaxSubresources)%nat ->
   (exists x, GetLockFlags i t = Ok x)
   /\ (exists b, GetMappingBuffer i t = Ok b)
   /\ (exists b, GetCopyBuffer i t = Ok b)
   /\ (exists t', SetLockFlags i f t = Ok t')
   /\ (exists t', DestroyBufferSubresource i t = Ok t'))
  /\ ((MaxSubresources <= N.to_nat i)%nat ->
      GetLockFlags i t = Undefined
      /\ GetMappingBuffer i t = Undefined
      /\ GetCopyBuffer i t = Undefined
      /\ SetLockFlags i f t = Undefined
      /\ DestroyBufferSubresource i t = Undefined).
Proof.
  intros (Hb & Hx & Hl). split; intros Hi.
  - rewrite SetLockFlags_unfold, DestroyBufferSubresource_unfold.
    rewrite !decide_True by lia.
    unfold GetLockFlags, GetMappingBuffer, GetCopyBuffer.
    split; [apply array_get_Ok; lia|].
    split; [apply array_get_Ok; lia|].
    split; [destruct (RequiresFixup t); apply array_get_Ok; lia|].
    split; eauto.
  - rewrite SetLockFlags_unfold, DestroyBufferSubresource_unfold.
    rewrite !decide_False by lia.
    unfold GetLockFlags, GetMappingBuffer, GetCopyBuffer.
    rewrite !array_get_Undefined by lia. by destruct (RequiresFixup t).
Qed.

(** ** Map mode of managed textures *)

(** X9. A texture in the managed pool is never mapped as system memory: its
    mode is Backed unless its format is the placeholder, and then None. *)
Theorem DetermineMapMode_managed (t : D3D9CommonTexture) :
  IsManaged t = true ->
  DetermineMapMode t <> D3D9_COMMON_TEXTURE_MAP_MODE_SYSTEMMEM
  /\ (Format (m_desc t) <> NULL_FORMAT <->
      DetermineMapMode t = D3D9_COMMON_TEXTURE_MAP_MODE_BACKED)
  /\ (Format (m_desc t) = NULL_FORMAT <->
      DetermineMapMode t = D3D9_COMMON_TEXTURE_MAP_MODE_NONE).
Proof.
  unfold IsManaged, DetermineMapMode. intros Hpool%bool_decide_eq_true.
  rewrite Hpool. destruct (decide (Format (m_desc t) = NULL_FORMAT)) as [Hf|Hf].
  - repeat split; intros; congruence.
  - rewrite decide_False by (intros [|]; discriminate).
    repeat split; intros; congruence.
Qed.

(** ** The order of subresources *)

(** X10. Without wrap-around, subresource indices are ordered face-major:
    [CalcSubresource] maps the lexicographic order on (face, mip) to the order
    of indices. *)
Theorem CalcSubresource_order (t : D3D9CommonTexture)
  (face mip face' mip' : UINT) :
  ArraySize (m_desc t) * MipLevels (m_desc t) < 2 ^ 32 ->
  face < ArraySize (m_desc t) -> mip < MipLevels (m_desc t) ->
  face' < ArraySize (m_desc t) -> mip' < MipLevels (m_desc t) ->
  (CalcSubresource t face mip < CalcSubresource t face' mip' <->
   face < face' \/ (face = face' /\ mip < mip')).
Proof.
  intros Hfit Hf Hm Hf' Hm'.
  destruct (CalcSubresource_exact t face mip Hfit Hf Hm) as [-> _].
  destruct (CalcSubresource_exact t face' mip' Hfit Hf' Hm') as [-> _].
  split.
  - intros Hlt. destruct (N.lt_trichotomy face face') as [?|[->|Hgt]].
    + by left.
    + right. split; [done|lia].
    + exfalso. nia.
  - intros [Hlt|[-> Hlt]]; nia.
Qed.

(** X11. Without wrap-around, the mip levels of a face occupy consecutive
    indices and the faces follow one another without a gap: the next mip level
    is the next index, and mip 0 of the next face comes right after the last
    mip of this face. *)
Theorem CalcSubresource_consecutive (t : D3D9CommonTexture) (face mip : UINT) :
  ArraySize (m_desc t) * MipLevels (m_desc t) < 2 ^ 32 ->
  face < ArraySize (m_desc t) -> mip < MipLevels (m_desc t) ->
  (mip + 1 < MipLevels (m_desc t) ->
   CalcSubresource t face (mip + 1) = CalcSubresource t face mip + 1)
  /\ (face + 1 < ArraySize (m_desc t) ->
      CalcSubresource t (face + 1) 0
      = CalcSubresource t face (MipLevels (m_desc t) - 1) + 1).
Proof.
  intros Hfit Hf Hm. split; intros Hnext.
  - destruct (CalcSubresource_exact t face mip Hfit Hf Hm) as [-> _].
    destruct (CalcSubresource_exact t face (mip + 1) Hfit Hf Hnext) as [-> _].
    lia.
  - assert (Hlast : MipLevels (m_desc t) - 1 < MipLevels (m_desc t)) by lia.
    assert (Hzero : 0 < MipLevels (m_desc t)) by lia.
    destruct (CalcSubresource_exact t (face + 1) 0 Hfit Hnext Hzero) as [-> _].
    destruct (CalcSubresource_exact t face _ Hfit Hf Hlast) as [-> _].
    lia.
Qed.

(** X12. [CalcSubresource] does not check the mip level against the number of
    levels: a mip level equal to [MipLevels] yields the index of mip 0 of the
    next face. *)
Theorem CalcSubresource_mip_overrun (t : D3D9CommonTexture) (face : UINT) :
  CalcSubresource t face (MipLevels (m_desc t))
  = CalcSubresource t (wrap32 (face + 1)) 0.
Proof.
  unfold CalcSubresource, wrap32.
  rewrite N.add_0_r, N.Div0.mod_mod.
  rewrite N.Div0.add_mod_idemp_l, N.Div0.mul_mod_idemp_l.
  f_equal. lia.
Qed.

(** X13. The extent [GetExtentMip] reports for the subresource of (face, mip)
    is the extent of mip level [mip] of the top-level extent, the same for
    every face, whatever [computeMipLevelExtent] computes. *)
Theorem GetExtentMip_CalcSubresource
  (computeMipLevelExtent : UINT * UINT * UINT -> UINT -> UINT * UINT * UINT)
  (t : D3D9CommonTexture) (face mip : UINT) :
  ArraySize (m_desc t) * MipLevels (m_desc t) < 2 ^ 32 ->
  face < ArraySize (m_desc t) -> mip < MipLevels (m_desc t) ->
  GetExtentMip computeMipLevelExtent (CalcSubresource t face mip) t
  = Ok (computeMipLevelExtent (GetExtent t) mip).
Proof.
  intros Hfit Hf Hm. unfold GetExtentMip.
  destruct (MipLevels (m_desc t) =? 0) eqn:Hz; [apply N.eqb_eq in Hz; lia|].
  destruct (CalcSubresource_exact t face mip Hfit Hf Hm) as [-> _].
  rewrite N.add_comm, N.Div0.mod_add, N.mod_small by done. done.
Qed.

(** ** What the view-related methods leave alone *)

(** X14. The render-target and depth layouts are decided by face 0 alone:
    replacing the views of any other face, the sample views or the
    mip-generation view changes neither layout. *)
Theorem layouts_decided_by_face_0 (vs : D3D9ViewSet) (i : fin 6)
  (sample target : D3D9ColorView) (mipgen depth : Rc DxvkImageView)
  (faces : vec D3D9ColorView 6) :
  i <> 0%fin ->
  GetRTLayout
    {| Sample := sample; MipGenRT := mipgen; FaceSample := faces;
       FaceRenderTarget := vinsert i target (FaceRenderTarget vs);
       FaceDepth := vinsert i depth (FaceDepth vs) |}
  = GetRTLayout vs
  /\ GetDepthLayout
       {| Sample := sample; MipGenRT := mipgen; FaceSample := faces;
          FaceRenderTarget := vinsert i target (FaceRenderTarget vs);
          FaceDepth := vinsert i depth (FaceDepth vs) |}
     = GetDepthLayout vs.
Proof.
  intros Hi. unfold GetRTLayout, GetDepthLayout. simpl.
  by rewrite !vlookup_insert_ne.
Qed.

(** X15. A completed [RecreateSampledView] replaces the sample view pair and
    nothing else: the per-face views, the mip-generation view and hence both
    layouts stay, and so does the rest of the texture. *)
Theorem RecreateSampledView_frame (Lod : UINT) (t t' : D3D9CommonTexture)
  (dev dev' : DxvkDevice) :
  RecreateSampledView Lod t dev = Ok (t', dev') ->
  t' = with_views (with_Sample (Sample (GetViews t')) (GetViews t)) t
  /\ GetRTLayout (GetViews t') = GetRTLayout (GetViews t)
  /\ GetDepthLayout (GetViews t') = GetDepthLayout (GetViews t).
Proof.
  unfold RecreateSampledView. intros H. bind_inv H.
  destruct a as [views dev1]. by injection H as <- <-.
Qed.

(** X16. A completed [GetResolveImage] changes nothing of the texture but the
    cached resolve image, which becomes the handle it returns. *)
Theorem GetResolveImage_frame (t t' : D3D9CommonTexture)
  (dev dev' : DxvkDevice) (h : Rc DxvkImage) :
  GetResolveImage t dev = Ok (h, t', dev') ->
  t' = with_resolveImage h t.
Proof.
  unfold GetResolveImage. destruct (m_resolveImage t) as [image|] eqn:Hres.
  - intros [= <- <- <-]. by rewrite <- Hres, with_resolveImage_same.
  - intros H. bind_inv H. destruct a as [image dev1]. simpl in H.
    by injection H as <- <- <-.
Qed.

(** ** Creating all buffers *)

Lemma CreateBufferSubresource_buffers (j : UINT) (t t' : D3D9CommonTexture)
  (dev dev' : DxvkDevice) (b : bool) :
  CreateBufferSubresource j t dev = Ok (b, t', dev') ->
  (exists buf, array_get (m_buffers t') j = Ok (Some buf))
  /\ (forall i buf, array_get (m_buffers t) i = Ok (Some buf) ->
                    array_get (m_buffers t') i = Ok (Some buf)).
Proof.
  unfold CreateBufferSubresource. intros H. bind_inv H.
  destruct a as [buf|].
  { injection H as <- <- <-. eauto. }
  bind_inv H. destruct a as [buf dev1]. simpl in H. bind_inv H.
  assert (Hkeep : forall i old, array_get (m_buffers t) i = Ok (Some old) ->
            array_get a i = Ok (Some old)).
  { intros i old Hold. destruct (decide (i = j)) as [->|Hne].
    - pose proof (eq_trans (eq_sym Ha) Hold) as Habs. discriminate Habs.
    - by rewrite (array_get_set_ne _ _ _ _ _ Ha1). }
  pose proof (array_get_set_eq _ _ _ _ Ha1) as Hnew.
  destruct (RequiresFixup _).
  - bind_inv H. destruct a0 as [fixup dev2]. simpl in H. bind_inv H.
    injection H as <- <- <-. simpl. eauto.
  - injection H as <- <- <-. simpl. eauto.
Qed.

Lemma CreateBufferSubresource_present (j : UINT) (t : D3D9CommonTexture)
  (dev : DxvkDevice) (buf : DxvkBuffer) :
  array_get (m_buffers t) j = Ok (Some buf) ->
  CreateBufferSubresource j t dev = Ok (false, t, dev).
Proof. intros Hj. unfold CreateBufferSubresource. by rewrite Hj. Qed.

Lemma CreateBuffers_loop_filled (n : nat) (k : UINT)
  (t t' : D3D9CommonTexture) (dev dev' : DxvkDevice) :
  k + N.of_nat n < 2 ^ 32 ->
  CreateBuffers_loop n k t dev = Ok (t', dev') ->
  (forall i buf, array_get (m_buffers t) i = Ok (Some buf) ->
                 array_get (m_buffers t') i = Ok (Some buf))
  /\ (forall i, k <= i < k + N.of_nat n ->
        exists buf, array_get (m_buffers t') i = Ok (Some buf)).
Proof.
  revert k t dev. induction n as [|n IH]; intros k t dev Hfit; simpl.
  - intros [= <- <-]. split; [done|]. intros i Hi. lia.
  - intros H. bind_inv H. destruct a as [[b t1] dev1]. simpl in H.
    apply CreateBufferSubresource_buffers in Ha as [[buf Hk] Hkeep1].
    rewrite wrap32_small in H by lia.
    apply IH in H as [Hkeep2 Hfill]; [|lia].
    split; [intros i old Hold; by apply Hkeep2, Hkeep1|].
    intros i Hi. destruct (decide (i = k)) as [->|Hne].
    + exists buf. by apply Hkeep2.
    + apply Hfill. lia.
Qed.

Lemma CreateBuffers_loop_nothing_to_do (n : nat) (k : UINT)
  (t : D3D9CommonTexture) (dev : DxvkDevice) :
  k + N.of_nat n < 2 ^ 32 ->
  (forall i, k <= i < k + N.of_nat n ->
     exists buf, array_get (m_buffers t) i = Ok (Some buf)) ->
  CreateBuffers_loop n k t dev = Ok (t, dev).
Proof.
  revert k. induction n as [|n IH]; intros k Hfit Hfull; simpl; [done|].
  destruct (Hfull k) as [buf Hk]; [lia|].
  rewrite (CreateBufferSubresource_present _ _ _ _ Hk). simpl.
  rewrite wrap32_small by lia. apply IH; [lia|].
  intros i Hi. apply Hfull. lia.
Qed.

Lemma CountSubresources_bound (t : D3D9CommonTexture) :
  CountSubresources t < 2 ^ 32.
Proof. unfold CountSubresources, wrap32. by apply N.mod_lt. Qed.

(** X17. When [CreateBuffers] completes, every subresource below
    [CountSubresources()] has a mapping buffer, and mapping buffers that
    existed before the call are the same handles after it
    ([CreateBufferSubresource] as the header comment and the spec describe
    it). *)
Theorem CreateBuffers_fills (t t' : D3D9CommonTexture) (dev dev' : DxvkDevice) :
  CreateBuffers t dev = Ok (t', dev') ->
  (forall i, i < CountSubresources t ->
     exists buf, GetMappingBuffer i t' = Ok (Some buf))
  /\ (forall i buf, GetMappingBuffer i t = Ok (Some buf) ->
                    GetMappingBuffer i t' = Ok (Some buf)).
Proof.
  unfold CreateBuffers, GetMappingBuffer. intros H.
  apply CreateBuffers_loop_filled in H as [Hkeep Hfill].
  - split; [|done]. intros i Hi. apply Hfill. lia.
  - pose proof (CountSubresources_bound t). lia.
Qed.

(** X18. [CreateBuffers] is idempotent: run again right after a completed
    run, it allocates nothing and leaves texture and device as they are. *)
Theorem CreateBuffers_idempotent (t t' : D3D9CommonTexture)
  (dev dev' : DxvkDevice) :
  CreateBuffers t dev = Ok (t', dev') ->
  CreateBuffers t' dev' = Ok (t', dev').
Proof.
  unfold CreateBuffers. intros H.
  pose proof (CountSubresources_bound t) as Hbound.
  pose proof (CreateBuffers_loop_unchanged _ _ _ _ _ _ H) as (Hdesc & _).
  apply CreateBuffers_loop_filled in H as [_ Hfill]; [|lia].
  assert (Hcount : CountSubresources t' = CountSubresources t)
    by (unfold CountSubresources; by rewrite Hdesc).
  rewrite Hcount. apply CreateBuffers_loop_nothing_to_do; [lia|done].
Qed.

(** X19. [CreateBuffers] runs up to [CountSubresources()], not up to the size
    of the arrays: on a texture with more subresources than
    [MaxSubresources] it never completes. *)
Theorem CreateBuffers_overrun (MaxSubresources : nat) (t t' : D3D9CommonTexture)
  (dev dev' : DxvkDevice) :
  texture_wf MaxSubresources t ->
  (MaxSubresources < N.to_nat (CountSubresources t))%nat ->
  CreateBuffers t dev <> Ok (t', dev').
Proof.
  intros (Hb & _) Hover H.
  pose proof (CountSubresources_bound t) as Hbound.
  unfold CreateBuffers in H.
  pose proof (CreateBuffers_loop_unchanged _ _ _ _ _ _ H)
    as (_ & _ & _ & _ & _ & Hlen & _).
  apply CreateBuffers_loop_filled in H as [_ Hfill]; [|lia].
  destruct (Hfill (N.of_nat MaxSubresources)) as [buf Hlook]; [lia|].
  apply array_get_inv', lookup_lt_Some in Hlook. lia.
Qed.

(** ** What stays for the life of a texture *)

(** X20. No sequence of completed calls changes the backing image, the
    resource type, the number of subresources, whether the format requires
    fixup, or the size of the three arrays. *)
Theorem calls_keep_identity (MaxSubresources : nat) (t t' : D3D9CommonTexture) :
  later t t' ->
  GetImage t' = GetImage t
  /\ m_type t' = m_type t
  /\ CountSubresources t' = CountSubresources t
  /\ RequiresFixup t' = RequiresFixup t
  /\ GetExtent t' = GetExtent t
  /\ (texture_wf MaxSubresources t -> texture_wf MaxSubresources t').
Proof.
  intros Hlater.
  pose proof (later_unchanged _ _ Hlater) as (Hd & Hty & _ & Hi & _).
  unfold GetImage, CountSubresources, RequiresFixup, GetExtent.
  rewrite Hd. do 5 (split; [done|]).
  intros Hwf. by eapply later_wf.
Qed.

(** ** The further properties at concrete textures *)

Lemma SetLockFlags_commute_witness :
  (0 : UINT) <> 1
  /\ SetLockFlags 0 16 (bare_texture (sysmem_desc R8G8B8 1 1))
     ≫= SetLockFlags 1 32
     = SetLockFlags 1 32 (bare_texture (sysmem_desc R8G8B8 1 1))
       ≫= SetLockFlags 0 16.
Proof.
  assert (Hne : (0 : UINT) <> 1) by discriminate.
  split; [exact Hne|].
  exact (SetLockFlags_commute (bare_texture (sysmem_desc R8G8B8 1 1))
           0 1 16 32 Hne).
Defined.

Lemma SetLockFlags_of_GetLockFlags_witness :
  GetLockFlags 2 (bare_texture (sysmem_desc R8G8B8 1 1)) = Ok 0
  /\ SetLockFlags 2 0 (bare_texture (sysmem_desc R8G8B8 1 1))
     = Ok (bare_texture (sysmem_desc R8G8B8 1 1)).
Proof.
  assert (Hget : GetLockFlags 2 (bare_texture (sysmem_desc R8G8B8 1 1)) = Ok 0)
    by reflexivity.
  split; [exact Hget|].
  exact (SetLockFlags_of_GetLockFlags _ 2 0 Hget).
Defined.

Lemma GetCopyBuffer_after_destroy_witness :
  exists t',
    DestroyBufferSubresource 0 fixup_texture_with_buffers = Ok t'
    /\ GetCopyBuffer 0 t' = Ok None.
Proof.
  assert (H : exists t',
             DestroyBufferSubresource 0 fixup_texture_with_buffers = Ok t')
    by (vm_compute; eauto).
  destruct H as (t' & H). exists t'. split; [exact H|].
  destruct (GetCopyBuffer_after_destroy _ _ _ H) as [Hcopy _]. exact Hcopy.
Defined.

Lemma indexed_methods_bounds_witness :
  texture_wf 6 (bare_texture (sysmem_desc R8G8B8 1 1))
  /\ (6 <= N.to_nat 7)%nat
  /\ GetMappingBuffer 7 (bare_texture (sysmem_desc R8G8B8 1 1)) = Undefined
  /\ (N.to_nat 5 < 6)%nat
  /\ exists b, GetMappingBuffer 5 (bare_texture (sysmem_desc R8G8B8 1 1)) = Ok b.
Proof.
  assert (Hwf : texture_wf 6 (bare_texture (sysmem_desc R8G8B8 1 1)))
    by apply bare_texture_wf.
  assert (Hout : (6 <= N.to_nat 7)%nat) by (vm_compute; lia).
  assert (Hin : (N.to_nat 5 < 6)%nat) by (vm_compute; lia).
  split; [exact Hwf|]. split; [exact Hout|].
  destruct (indexed_methods_bounds 6 _ 7 0 Hwf) as [_ Hundef].
  destruct (Hundef Hout) as (_ & Hmap & _).
  split; [exact Hmap|]. split; [exact Hin|].
  destruct (indexed_methods_bounds 6 _ 5 0 Hwf) as [Hdef _].
  destruct (Hdef Hin) as (_ & Hmap' & _). exact Hmap'.
Defined.

Lemma DetermineMapMode_managed_witness :
  IsManaged managed_texture = true
  /\ DetermineMapMode managed_texture <> D3D9_COMMON_TEXTURE_MAP_MODE_SYSTEMMEM.
Proof.
  assert (Hm : IsManaged managed_texture = true) by reflexivity.
  split; [exact Hm|].
  destruct (DetermineMapMode_managed managed_texture Hm) as [Hne _].
  exact Hne.
Defined.

Lemma CalcSubresource_order_witness :
  CalcSubresource (bare_texture (sysmem_desc (OtherFormat 21) 6 4)) 1 3
  < CalcSubresource (bare_texture (sysmem_desc (OtherFormat 21) 6 4)) 2 0
  <-> 1 < 2 \/ (1 = 2 /\ 3 < 0).
Proof.
  apply (CalcSubresource_order
           (bare_texture (sysmem_desc (OtherFormat 21) 6 4)) 1 3 2 0);
    reflexivity.
Defined.

Lemma CalcSubresource_consecutive_witness :
  CalcSubresource (bare_texture (sysmem_desc (OtherFormat 21) 6 4)) 2 0
  = CalcSubresource (bare_texture (sysmem_desc (OtherFormat 21) 6 4)) 1 3 + 1.
Proof.
  assert (Hfit : ArraySize (m_desc (bare_texture (sysmem_desc (OtherFormat 21) 6 4)))
                 * MipLevels (m_desc (bare_texture (sysmem_desc (OtherFormat 21) 6 4)))
                 < 2 ^ 32) by reflexivity.
  destruct (CalcSubresource_consecutive
              (bare_texture (sysmem_desc (OtherFormat 21) 6 4)) 1 3 Hfit)
    as [_ Hface]; [reflexivity | reflexivity |].
  apply Hface. reflexivity.
Defined.

Lemma GetExtentMip_CalcSubresource_witness :
  GetExtentMip halved_extent
    (CalcSubresource (bare_texture (sysmem_desc (OtherFormat 21) 6 4)) 5 2)
    (bare_texture (sysmem_desc (OtherFormat 21) 6 4))
  = Ok (halved_extent
          (GetExtent (bare_texture (sysmem_desc (OtherFormat 21) 6 4))) 2).
Proof.
  apply (GetExtentMip_CalcSubresource halved_extent
           (bare_texture (sysmem_desc (OtherFormat 21) 6 4)) 5 2);
    reflexivity.
Defined.

Lemma layouts_decided_by_face_0_witness :
  (1%fin : fin 6) <> 0%fin
  /\ GetRTLayout
       {| Sample := null_color_view; MipGenRT := None;
          FaceSample := FaceSample null_views;
          FaceRenderTarget :=
            vinsert 1%fin (Sample sampled_only_views)
                    (FaceRenderTarget sampled_only_views);
          FaceDepth := vinsert 1%fin None (FaceDepth sampled_only_views) |}
     = GetRTLayout sampled_only_views.
Proof.
  assert (Hne : (1%fin : fin 6) <> 0%fin) by discriminate.
  split; [exact Hne|].
  destruct (layouts_decided_by_face_0 sampled_only_views 1%fin
              null_color_view (Sample sampled_only_views) None None
              (FaceSample null_views) Hne) as [Hrt _].
  exact Hrt.
Defined.

Lemma RecreateSampledView_frame_witness :
  exists t' dev',
    RecreateSampledView 1 sampled_only_texture plain_device = Ok (t', dev')
    /\ GetRTLayout (GetViews t') = GetRTLayout (GetViews sampled_only_texture).
Proof.
  assert (H : exists t' dev',
             RecreateSampledView 1 sampled_only_texture plain_device
             = Ok (t', dev'))
    by (vm_compute; eauto).
  destruct H as (t' & dev' & H). exists t', dev'. split; [exact H|].
  destruct (RecreateSampledView_frame _ _ _ _ _ H) as (_ & Hrt & _).
  exact Hrt.
Defined.

Lemma GetResolveImage_frame_witness :
  exists h t' dev',
    GetResolveImage sampled_only_texture plain_device = Ok (h, t', dev')
    /\ t' = with_resolveImage h sampled_only_texture.
Proof.
  assert (H : exists h t' dev',
             GetResolveImage sampled_only_texture plain_device
             = Ok (h, t', dev'))
    by (vm_compute; eauto).
  destruct H as (h & t' & dev' & H). exists h, t', dev'. split; [exact H|].
  exact (GetResolveImage_frame _ _ _ _ _ H).
Defined.

Lemma CreateBuffers_fills_witness :
  exists t' dev',
    CreateBuffers (bare_texture (sysmem_desc (OtherFormat 21) 1 4)) plain_device
    = Ok (t', dev')
    /\ exists buf, GetMappingBuffer 3 t' = Ok (Some buf).
Proof.
  assert (H : exists t' dev',
             CreateBuffers (bare_texture (sysmem_desc (OtherFormat 21) 1 4))
               plain_device = Ok (t', dev'))
    by (vm_compute; eauto).
  destruct H as (t' & dev' & H). exists t', dev'. split; [exact H|].
  destruct (CreateBuffers_fills _ _ _ _ H) as [Hfill _].
  apply Hfill. reflexivity.
Defined.

Lemma CreateBuffers_idempotent_witness :
  exists t' dev',
    CreateBuffers (bare_texture (sysmem_desc R8G8B8 1 4)) plain_device
    = Ok (t', dev')
    /\ CreateBuffers t' dev' = Ok (t', dev').
Proof.
  assert (H : exists t' dev',
             CreateBuffers (bare_texture (sysmem_desc R8G8B8 1 4))
               plain_device = Ok (t', dev'))
    by (vm_compute; eauto).
  destruct H as (t' & dev' & H). exists t', dev'. split; [exact H|].
  exact (CreateBuffers_idempotent _ _ _ _ H).
Defined.

Lemma CreateBuffers_overrun_witness :
  texture_wf 6 (bare_texture (sysmem_desc (OtherFormat 21) 6 4))
  /\ (6 < N.to_nat (CountSubresources
                      (bare_texture (sysmem_desc (OtherFormat 21%N) 6%N 4%N))))%nat
  /\ CreateBuffers (bare_texture (sysmem_desc (OtherFormat 21) 6 4)) plain_device
     <> Ok (bare_texture (sysmem_desc (OtherFormat 21) 6 4), plain_device).
Proof.
  assert (Hwf : texture_wf 6 (bare_texture (sysmem_desc (OtherFormat 21) 6 4)))
    by apply bare_texture_wf.
  assert (Hover : (6 < N.to_nat (CountSubresources
                     (bare_texture (sysmem_desc (OtherFormat 21%N) 6%N 4%N))))%nat)
    by (vm_compute; lia).
  split; [exact Hwf|]. split; [exact Hover|].
  exact (CreateBuffers_overrun 6 _ _ plain_device plain_device Hwf Hover).
Defined.

Lemma calls_keep_identity_witness :
  later (bare_texture (sysmem_desc R8G8B8 1 1))
        (with_lockFlags [16; 0; 0; 0; 0; 0]
           (bare_texture (sysmem_desc R8G8B8 1 1)))
  /\ CountSubresources (with_lockFlags [16; 0; 0; 0; 0; 0]
                          (bare_texture (sysmem_desc R8G8B8 1 1)))
     = CountSubresources (bare_texture (sysmem_desc R8G8B8 1 1)).
Proof.
  assert (Hlater : later (bare_texture (sysmem_desc R8G8B8 1 1))
                     (with_lockFlags [16; 0; 0; 0; 0; 0]
                        (bare_texture (sysmem_desc R8G8B8 1 1)))).
  { apply (later_call _ (CallSetLockFlags 0 16)
             (bare_texture (sysmem_desc R8G8B8 1 1)) _
             plain_device plain_device).
    - apply later_now.
    - vm_compute; reflexivity. }
  split; [exact Hlater|].
  destruct (calls_keep_identity 6 _ _ Hlater) as (_ & _ & Hcount & _).
  exact Hcount.
Defined.

(** * Mapping and fixup buffers come in pairs *)

Lemma construct_no_buffers (MaxSubresources : nat)
  (pDesc : D3D9_COMMON_TEXTURE_DESC) (ResourceType : D3DRESOURCETYPE)
  (dev dev' : DxvkDevice) (t : D3D9CommonTexture) :
  construct MaxSubresources pDesc ResourceType dev = Ok (t, dev') ->
  m_buffers t = replicate MaxSubresources None.
Proof.
  unfold construct.
  destruct (NormalizeTextureProperties pDesc) as [hr desc].
  destruct (decide (hr = D3D_OK /\ _)) as [_|_]; [|discriminate].
  destruct (decide (m_mapMode _ = _)) as [_|_].
  - by intros [= <- <-].
  - intros H. bind_inv H. destruct a as [image dev1]. simpl in H.
    bind_inv H. destruct a as [views dev2]. by injection H as <- <-.
Qed.

Lemma fixup_buffers_paired_construct (MaxSubresources : nat)
  (pDesc : D3D9_COMMON_TEXTURE_DESC) (ResourceType : D3DRESOURCETYPE)
  (dev dev' : DxvkDevice) (t : D3D9CommonTexture) :
  construct MaxSubresources pDesc ResourceType dev = Ok (t, dev') ->
  fixup_buffers_paired t.
Proof.
  intros Hnew%construct_no_buffers _ i buf Hget%array_get_inv'.
  rewrite Hnew in Hget. apply lookup_replicate in Hget as [Habs _].
  discriminate Habs.
Qed.

Lemma fixup_buffers_paired_same (t t' : D3D9CommonTexture) :
  m_desc t' = m_desc t ->
  m_buffers t' = m_buffers t ->
  m_fixupBuffers t' = m_fixupBuffers t ->
  fixup_buffers_paired t -> fixup_buffers_paired t'.
Proof.
  unfold fixup_buffers_paired, RequiresFixup. intros -> -> ->. done.
Qed.

Lemma fixup_buffers_paired_destroy (i : UINT) (t t' : D3D9CommonTexture) :
  DestroyBufferSubresource i t = Ok t' ->
  fixup_buffers_paired t -> fixup_buffers_paired t'.
Proof.
  unfold DestroyBufferSubresource. intros H Hpaired Hfix k buf Hk.
  bind_inv H. simpl in H. bind_inv H. injection H as <-. simpl in *.
  destruct (decide (k = i)) as [->|Hne].
  - rewrite (array_get_set_eq _ _ _ _ Ha) in Hk. discriminate Hk.
  - rewrite (array_get_set_ne _ _ _ _ _ Ha Hne) in Hk.
    rewrite (array_get_set_ne _ _ _ _ _ Ha0 Hne). by apply Hpaired.
Qed.

Lemma fixup_buffers_paired_create (j : UINT) (t t' : D3D9CommonTexture)
  (dev dev' : DxvkDevice) (b : bool) :
  CreateBufferSubresource j t dev = Ok (b, t', dev') ->
  fixup_buffers_paired t -> fixup_buffers_paired t'.
Proof.
  unfold CreateBufferSubresource. intros H Hpaired. bind_inv H.
  destruct a as [buf|]; [by injection H as <- <- <-|].
  bind_inv H. destruct a as [buf dev1]. simpl in H. bind_inv H.
  apply createBuffer_Ok in Ha0 as [Hbuf Hid].
  change (RequiresFixup (with_buffers a t)) with (RequiresFixup t) in H.
  destruct (RequiresFixup t) eqn:Hreq.
  - bind_inv H. destruct a0 as [fixup dev2]. simpl in H. bind_inv H.
    apply createBuffer_Ok in Ha0 as [Hfixup Hid'].
    injection H as <- <- <-. intros _ k old Hk. simpl in *.
    destruct (decide (k = j)) as [->|Hne].
    + rewrite (array_get_set_eq _ _ _ _ Ha1) in Hk. injection Hk as <-.
      exists fixup. split; [by apply (array_get_set_eq _ _ _ _ Ha2)|].
      intros ->. lia.
    + rewrite (array_get_set_ne _ _ _ _ _ Ha1 Hne) in Hk.
      rewrite (array_get_set_ne _ _ _ _ _ Ha2 Hne). by apply Hpaired.
  - injection H as <- <- <-. intros Hfix.
    change (RequiresFixup (with_buffers a t)) with (RequiresFixup t) in Hfix.
    congruence.
Qed.

Lemma fixup_buffers_paired_loop (n : nat) (k : UINT)
  (t t' : D3D9CommonTexture) (dev dev' : DxvkDevice) :
  CreateBuffers_loop n k t dev = Ok (t', dev') ->
  fixup_buffers_paired t -> fixup_buffers_paired t'.
Proof.
  revert k t dev. induction n as [|n IH]; intros k t dev; simpl.
  - by intros [= <- <-].
  - intros H Hpaired. bind_inv H. destruct a as [[b t1] dev1]. simpl in H.
    eapply IH; [exact H|]. by eapply fixup_buffers_paired_create.
Qed.

Lemma fixup_buffers_paired_invoke (c : Call) (t t' : D3D9CommonTexture)
  (dev dev' : DxvkDevice) :
  invoke c t dev = Ok (t', dev') ->
  fixup_buffers_paired t -> fixup_buffers_paired t'.
Proof.
  destruct c as [i f|i|i| | |Lod]; simpl; intros H.
  - bind_inv H. injection H as <- <-. unfold SetLockFlags in Ha.
    bind_inv Ha. injection Ha as <-. by apply fixup_buffers_paired_same.
  - bind_inv H. injection H as <- <-. by eapply fixup_buffers_paired_destroy.
  - bind_inv H. destruct a as [[b t1] dev1]. injection H as <- <-.
    by eapply fixup_buffers_paired_create.
  - by eapply fixup_buffers_paired_loop.
  - bind_inv H. destruct a as [[h t1] dev1]. injection H as <- <-.
    unfold GetResolveImage in Ha. destruct (m_resolveImage t).
    + by injection Ha as <- <- <-.
    + bind_inv Ha. destruct a as [image dev2]. simpl in Ha.
      injection Ha as <- <- <-. by apply fixup_buffers_paired_same.
  - unfold RecreateSampledView in H. bind_inv H. destruct a as [views dev1].
    injection H as <- <-. by apply fixup_buffers_paired_same.
Qed.

Lemma fixup_buffers_paired_later (t t' : D3D9CommonTexture) :
  later t t' -> fixup_buffers_paired t -> fixup_buffers_paired t'.
Proof.
  induction 1 as [|c t1 t2 dev dev' _ IH Hcall]; [done|].
  intros Hpaired. eapply fixup_buffers_paired_invoke; [exact Hcall|].
  by apply IH.
Qed.

(** C3, amended. [RequiresFixup()] is true iff the format is R8G8B8; for
    every other format [GetCopyBuffer(i)] is [GetMappingBuffer(i)]; whenever
    the two differ the texture requires fixup; a texture that requires fixup
    gets the fixup buffer of [i] from [GetCopyBuffer(i)]; and in every
    texture that was constructed and used since,
    [RequiresFixup() == (GetCopyBuffer(i) != GetMappingBuffer(i))] holds for
    every subresource [i] that has its mapping buffer. *)
Theorem RequiresFixup_copy_buffer (t : D3D9CommonTexture) :
  (RequiresFixup t = true <-> Format (m_desc t) = R8G8B8)
  /\ (forall i, Format (m_desc t) <> R8G8B8 ->
        GetCopyBuffer i t = GetMappingBuffer i t)
  /\ (forall i, GetCopyBuffer i t <> GetMappingBuffer i t ->
        RequiresFixup t = true)
  /\ (forall i, RequiresFixup t = true ->
        GetCopyBuffer i t = array_get (m_fixupBuffers t) i)
  /\ (forall (MaxSubresources : nat) (pDesc : D3D9_COMMON_TEXTURE_DESC)
        (ResourceType : D3DRESOURCETYPE) (dev dev' : DxvkDevice)
        (t0 : D3D9CommonTexture),
        construct MaxSubresources pDesc ResourceType dev = Ok (t0, dev') ->
        later t0 t ->
        forall i buf,
          GetMappingBuffer i t = Ok (Some buf) ->
          (RequiresFixup t = true <->
           GetCopyBuffer i t <> GetMappingBuffer i t)).
Proof.
  split; [apply RequiresFixup_iff|].
  unfold GetCopyBuffer, GetMappingBuffer. split; [|split; [|split]].
  - intros i Hfmt. destruct (RequiresFixup t) eqn:Hfix; [|done].
    by apply RequiresFixup_iff in Hfix.
  - intros i Hne. destruct (RequiresFixup t); [done|]. by destruct Hne.
  - intros i ->. done.
  - intros n pDesc ResourceType dev dev' t0 Hnew Hlater i buf Hmap.
    pose proof (fixup_buffers_paired_later _ _ Hlater
                  (fixup_buffers_paired_construct _ _ _ _ _ _ Hnew))
      as Hpaired.
    destruct (RequiresFixup t) eqn:Hfix.
    + destruct (Hpaired Hfix i buf Hmap) as (fixup & Hget & Hne).
      split; [|done]. intros _. rewrite Hget, Hmap. intros [= Heq].
      by apply Hne.
    + split; [discriminate|]. intros Hne. by destruct Hne.
Qed.

Lemma RequiresFixup_copy_buffer_witness :
  exists t dev,
    construct 6 (sysmem_desc R8G8B8 1 1) D3DRTYPE_TEXTURE plain_device
    = Ok (bare_texture (sysmem_desc R8G8B8 1 1), plain_device)
    /\ invoke (CallCreateBufferSubresource 0)
         (bare_texture (sysmem_desc R8G8B8 1 1)) plain_device = Ok (t, dev)
    /\ GetMappingBuffer 0 t = Ok (Some {| buffer_id := 100 |})
    /\ RequiresFixup t = true
    /\ GetCopyBuffer 0 t <> GetMappingBuffer 0 t.
Proof.
  assert (Hnew : construct 6 (sysmem_desc R8G8B8 1 1) D3DRTYPE_TEXTURE
                   plain_device
                 = Ok (bare_texture (sysmem_desc R8G8B8 1 1), plain_device))
    by (vm_compute; reflexivity).
  assert (H : exists t dev,
             invoke (CallCreateBufferSubresource 0)
               (bare_texture (sysmem_desc R8G8B8 1 1)) plain_device
             = Ok (t, dev)
             /\ GetMappingBuffer 0 t = Ok (Some {| buffer_id := 100 |})
             /\ RequiresFixup t = true)
    by (vm_compute; eauto).
  destruct H as (t & dev & Hcall & Hmap & Hfix). exists t, dev.
  split; [exact Hnew|]. split; [exact Hcall|]. split; [exact Hmap|].
  split; [exact Hfix|].
  destruct (RequiresFixup_copy_buffer t) as (_ & _ & _ & _ & Hpaired).
  apply (Hpaired 6%nat _ _ _ _ _ Hnew
           (later_call _ _ _ _ _ _ (later_now _) Hcall) 0 _ Hmap).
  exact Hfix.
Defined.
